(** * pyntc: the F5 TMOS device driver (pyntc/devices/f5_device.py)

    A shallow embedding of [F5Device] and the properties of its firmware
    life cycle: free-space precondition, chunked upload, checksum
    comparison, install polling and reboot polling.

    Conventions of the embedding.
    - A Python text is a [string]; every [ascii] stands for the code point
      of the same number (texts are restricted to code points below 256).
    - Python values of varying type ([None], a bool, a text, a float) are
      values of [pyval].
    - The driver's effects are threaded through a state-and-exception monad
      [M] over a [World]: the clock, the appliance as the management API
      shows it at each instant, the local file system, the commands issued
      and the HTTP requests posted.
    - [time.sleep d] advances the clock by exactly [d] seconds and every
      other operation takes no time. *)

From Stdlib Require Import ZArith QArith List String Ascii Bool Lia.
From Stdlib Require Import Strings.Byte.
Import ListNotations.
Open Scope string_scope.
Open Scope list_scope.
Open Scope Z_scope.

(* ================================================================== *)
(** * Python values and exceptions                                     *)
(* ================================================================== *)

(** The interpreter the driver runs under.  Only two things below depend on
    it: the character class [\s] of [re], and the ordering of an [int]
    against a [str]. *)
Inductive pyver := Py2 | Py3.

(** A float is kept as the exact rational it denotes; [float] of a long run
    of digits overflows to [inf]. *)
Inductive pyfloat :=
| Finite (q : Q)
| Infinity.

Inductive pyval :=
| PyNone
| PyBool (b : bool)
| PyStr (s : string)
| PyFloat (f : pyfloat).

Inductive exn :=
| ValueError (msg : string)
| RuntimeError (msg : string)
| NotImplementedError (msg : string)
| TypeError
| IndexError
| OSError
| DeviceError.   (* whatever the SDK or the transport raises *)

(** Truth value of an object, as [if x:] and [not x] test it. *)
Definition truthy (v : pyval) : bool :=
  match v with
  | PyNone => false
  | PyBool b => b
  | PyStr s => negb (s =? "")%string
  | PyFloat (Finite q) => negb (Qeq_bool q 0)
  | PyFloat Infinity => true
  end.

(** [a == b]. *)
Definition py_eq (a b : pyval) : bool :=
  match a, b with
  | PyNone, PyNone => true
  | PyBool x, PyBool y => Bool.eqb x y
  | PyStr x, PyStr y => (x =? y)%string
  | PyFloat (Finite x), PyFloat (Finite y) => Qeq_bool x y
  | PyFloat Infinity, PyFloat Infinity => true
  | PyBool x, PyFloat (Finite y) | PyFloat (Finite y), PyBool x =>
      Qeq_bool (if x then 1 else 0)%Q y
  | _, _ => false
  end.

(** [str(x)] for an optional text, as [format] renders it. *)
Definition py_str (x : option string) : string :=
  match x with
  | Some s => s
  | None => "None"
  end.

(** [int < other] and [int >= other].  An [int] and a float compare by
    value.  Against a text or [None] Python 3 raises [TypeError]; Python 2
    orders [None] before every number and every number before every text. *)
Definition int_lt (py : pyver) (m : Z) (v : pyval) : exn + bool :=
  match v with
  | PyFloat (Finite q) => inr (negb (Qle_bool q (inject_Z m)))
  | PyFloat Infinity => inr true
  | PyBool b => inr (m <? (if b then 1 else 0))
  | PyStr _ => match py with Py2 => inr true | Py3 => inl TypeError end
  | PyNone => match py with Py2 => inr false | Py3 => inl TypeError end
  end.

Definition int_ge (py : pyver) (m : Z) (v : pyval) : exn + bool :=
  match v with
  | PyFloat (Finite q) => inr (Qle_bool q (inject_Z m))
  | PyFloat Infinity => inr false
  | PyBool b => inr ((if b then 1 else 0) <=? m)
  | PyStr _ => match py with Py2 => inr false | Py3 => inl TypeError end
  | PyNone => match py with Py2 => inr true | Py3 => inl TypeError end
  end.

(* ================================================================== *)
(** * Texts                                                            *)
(* ================================================================== *)

Definition code (c : ascii) : Z := Z.of_N (N_of_ascii c).

Definition is_digit (c : ascii) : bool := (48 <=? code c) && (code c <=? 57).

(** [\s]: blank, tab to carriage return; under Python 3 (a [str] pattern)
    also the separators 28..31, NEL and the no-break space. *)
Definition is_space (py : pyver) (c : ascii) : bool :=
  let n := code c in
  ((9 <=? n) && (n <=? 13)) || (n =? 32) ||
  match py with
  | Py2 => false
  | Py3 => ((28 <=? n) && (n <=? 31)) || (n =? 133) || (n =? 160)
  end.

(** [.] without DOTALL: anything but a line feed. *)
Definition is_dot (c : ascii) : bool := negb (code c =? 10).

(** [s] without its prefix [p], when it starts with it. *)
Fixpoint strip_prefix (p s : string) : option string :=
  match p, s with
  | EmptyString, _ => Some s
  | String a p', String b s' => if Ascii.eqb a b then strip_prefix p' s' else None
  | String _ _, EmptyString => None
  end.

Fixpoint rev_string (acc s : string) : string :=
  match s with
  | EmptyString => acc
  | String c s' => rev_string (String c acc) s'
  end.

(* ------------------------------------------------------------------ *)
(** ** A backtracking matcher for the patterns the driver uses          *)
(* ------------------------------------------------------------------ *)

(** The pieces of a pattern: repetition applies to one-character classes
    only, and there is one capturing group. *)
Inductive atom :=
| Star (p : ascii -> bool)     (* p*, greedy *)
| Plus (p : ascii -> bool)     (* p+, greedy *)
| Opt (c : ascii)              (* c?, greedy *)
| One (p : ascii -> bool)
| Lit (s : string)
| GroupOpen
| GroupClose.

(** Group 1 while matching: not entered, being filled (reversed), closed. *)
Inductive capture :=
| NotYet
| Filling (rev_text : string)
| Closed (text : string).

Definition push (g : capture) (c : ascii) : capture :=
  match g with
  | Filling t => Filling (String c t)
  | _ => g
  end.

Fixpoint push_all (g : capture) (s : string) : capture :=
  match s with
  | EmptyString => g
  | String c s' => push_all (push g c) s'
  end.

Definition group1 (g : capture) : string :=
  match g with
  | Closed t => t
  | _ => ""
  end.

(** Greedy repetition: take one more character when possible, and fall back
    to the continuation [k] here when the rest does not match. *)
Fixpoint star (p : ascii -> bool) (k : capture -> string -> option string)
         (g : capture) (s : string) : option string :=
  match s with
  | String c s' =>
      if p c then
        match star p k (push g c) s' with
        | Some r => Some r
        | None => k g s
        end
      else k g s
  | EmptyString => k g s
  end.

(** [exec r g s]: match the pattern [r] at the start of [s]; the text of
    group 1 of the first match in backtracking order. *)
Fixpoint exec (r : list atom) (g : capture) (s : string) : option string :=
  match r with
  | [] => Some (group1 g)
  | Star p :: r' => star p (exec r') g s
  | Plus p :: r' =>
      match s with
      | String c s' => if p c then star p (exec r') (push g c) s' else None
      | EmptyString => None
      end
  | Opt c :: r' =>
      match s with
      | String c' s' =>
          if Ascii.eqb c' c then
            match exec r' (push g c') s' with
            | Some x => Some x
            | None => exec r' g s
            end
          else exec r' g s
      | EmptyString => exec r' g s
      end
  | One p :: r' =>
      match s with
      | String c s' => if p c then exec r' (push g c) s' else None
      | EmptyString => None
      end
  | Lit l :: r' =>
      match strip_prefix l s with
      | Some s' => exec r' (push_all g l) s'
      | None => None
      end
  | GroupOpen :: r' => exec r' (Filling "") s
  | GroupClose :: r' =>
      exec r' (match g with Filling t => Closed (rev_string "" t) | _ => g end) s
  end.

(** [re.match(r, s)] followed by [.group(1)]; [None] when there is no match. *)
Definition re_match (r : list atom) (s : string) : option string :=
  exec r NotYet s.

(** '.*\s\/\s(\d+\.?\d+) GB free' *)
Definition free_space_regex (py : pyver) : list atom :=
  [ Star is_dot; One (is_space py); One (Ascii.eqb "/"); One (is_space py);
    GroupOpen; Plus is_digit; Opt "."; Plus is_digit; GroupClose;
    Lit " GB free" ].

(* ------------------------------------------------------------------ *)
(** ** [float] of a decimal text                                       *)
(* ------------------------------------------------------------------ *)

Definition digit_value (c : ascii) : Z := code c - 48.

(** The digits of [s] as a numerator and the number of digits after the
    point: [(n, k)] stands for n / 10^k. *)
Fixpoint decimal_parts (s : string) (n : Z) (frac : option Z) : Z * Z :=
  match s with
  | EmptyString => (n, match frac with Some k => k | None => 0 end)
  | String c s' =>
      if is_digit c then
        decimal_parts s' (10 * n + digit_value c)
                      (match frac with Some k => Some (k + 1) | None => None end)
      else decimal_parts s' n (Some 0)
  end.

Definition round_half_even (num den : Z) : Z :=
  let q := num / den in
  let r := num mod den in
  if 2 * r <? den then q
  else if den <? 2 * r then q + 1
  else if Z.even q then q else q + 1.

(** The binary64 number nearest to n/d (ties to even), for n >= 0 < d. *)
Definition round_binary64 (n d : Z) : pyfloat :=
  if n =? 0 then Finite 0
  else
    let e0 := Z.log2 n - Z.log2 d in
    let below := if 0 <=? e0 then n <? d * 2 ^ e0 else n * 2 ^ (- e0) <? d in
    let e := if below then e0 - 1 else e0 in
    let s := Z.max e (-1022) - 52 in
    let m := if 0 <=? s then round_half_even n (d * 2 ^ s)
             else round_half_even (n * 2 ^ (- s)) d in
    if 0 <=? s then
      if 2 ^ 1024 <=? m * 2 ^ s then Infinity else Finite (inject_Z (m * 2 ^ s))
    else Finite (Qmake m (Z.to_pos (2 ^ (- s)))).

(** [float(s)] for a text of the shape digits, or digits '.' digits. *)
Definition py_float (s : string) : pyfloat :=
  let '(n, k) := decimal_parts s 0 None in
  round_binary64 n (10 ^ k).

(* ================================================================== *)
(** * MD5 (RFC 1321), the digest [hashlib.md5] computes                 *)
(* ================================================================== *)

Module MD5.

Definition w32 (x : Z) : Z := x mod 2 ^ 32.

Definition rotl (x s : Z) : Z :=
  w32 (Z.lor (Z.shiftl x s) (Z.shiftr x (32 - s))).

Definition not32 (x : Z) : Z := Z.lxor x (2 ^ 32 - 1).

(** floor (2^32 * |sin (i + 1)|) *)
Definition K : list Z :=
[ 3614090360; 3905402710; 606105819; 3250441966;
  4118548399; 1200080426; 2821735955; 4249261313;
  1770035416; 2336552879; 4294925233; 2304563134;
  1804603682; 4254626195; 2792965006; 1236535329;
  4129170786; 3225465664; 643717713; 3921069994;
  3593408605; 38016083; 3634488961; 3889429448;
  568446438; 3275163606; 4107603335; 1163531501;
  2850285829; 4243563512; 1735328473; 2368359562;
  4294588738; 2272392833; 1839030562; 4259657740;
  2763975236; 1272893353; 4139469664; 3200236656;
  681279174; 3936430074; 3572445317; 76029189;
  3654602809; 3873151461; 530742520; 3299628645;
  4096336452; 1126891415; 2878612391; 4237533241;
  1700485571; 2399980690; 4293915773; 2240044497;
  1873313359; 4264355552; 2734768916; 1309151649;
  4149444226; 3174756917; 718787259; 3951481745 ].

Definition shifts : list Z :=
[ 7; 12; 17; 22; 7; 12; 17; 22; 7; 12; 17; 22; 7; 12; 17; 22;
  5; 9; 14; 20; 5; 9; 14; 20; 5; 9; 14; 20; 5; 9; 14; 20;
  4; 11; 16; 23; 4; 11; 16; 23; 4; 11; 16; 23; 4; 11; 16; 23;
  6; 10; 15; 21; 6; 10; 15; 21; 6; 10; 15; 21; 6; 10; 15; 21 ].

Record state := { A : Z; B : Z; C : Z; D : Z }.

Definition init : state :=
  {| A := 1732584193; B := 4023233417; C := 2562383102; D := 271733878 |}.

(** The [n] low bytes of [x], least significant first. *)
Fixpoint le_bytes (n : nat) (x : Z) : list Z :=
  match n with
  | O => []
  | S n' => x mod 256 :: le_bytes n' (x / 256)
  end.

Fixpoint le_word (bs : list Z) : Z :=
  match bs with
  | [] => 0
  | b :: bs' => b + 256 * le_word bs'
  end.

(** The sixteen words of a 64-byte block. *)
Fixpoint words (n : nat) (block : list Z) : list Z :=
  match n with
  | O => []
  | S n' => le_word (firstn 4 block) :: words n' (skipn 4 block)
  end.

Definition pad (msg : list Z) : list Z :=
  let len := Z.of_nat (List.length msg) in
  msg ++ 128 :: repeat 0 (Z.to_nat ((55 - len) mod 64)) ++ le_bytes 8 (8 * len).

Definition step (m : list Z) (s : state) (i : nat) : state :=
  let iz := Z.of_nat i in
  let '(f, g) :=
    if iz <? 16 then
      (Z.lor (Z.land (B s) (C s)) (Z.land (not32 (B s)) (D s)), iz)
    else if iz <? 32 then
      (Z.lor (Z.land (D s) (B s)) (Z.land (not32 (D s)) (C s)), (5 * iz + 1) mod 16)
    else if iz <? 48 then
      (Z.lxor (B s) (Z.lxor (C s) (D s)), (3 * iz + 5) mod 16)
    else
      (Z.lxor (C s) (Z.lor (B s) (not32 (D s))), (7 * iz) mod 16) in
  let f' := w32 (f + A s + nth i K 0 + nth (Z.to_nat g) m 0) in
  {| A := D s; D := C s; C := B s;
     B := w32 (B s + rotl f' (nth i shifts 0)) |}.

Definition compress (s : state) (block : list Z) : state :=
  let m := words 16 block in
  let s' := fold_left (step m) (seq 0 64) s in
  {| A := w32 (A s + A s'); B := w32 (B s + B s');
     C := w32 (C s + C s'); D := w32 (D s + D s') |}.

Fixpoint blocks (n : nat) (s : state) (data : list Z) : state :=
  match n with
  | O => s
  | S n' => blocks n' (compress s (firstn 64 data)) (skipn 64 data)
  end.

Definition digest (msg : list byte) : list Z :=
  let data := pad (map (fun b => Z.of_N (Byte.to_N b)) msg) in
  let s := blocks (List.length data / 64) init data in
  le_bytes 4 (A s) ++ le_bytes 4 (B s) ++ le_bytes 4 (C s) ++ le_bytes 4 (D s).

Definition hex_digit (x : Z) : ascii :=
  ascii_of_N (Z.to_N (if x <? 10 then 48 + x else 87 + x)).

Fixpoint hex (bs : list Z) : string :=
  match bs with
  | [] => ""
  | b :: bs' => String (hex_digit (b / 16)) (String (hex_digit (b mod 16)) (hex bs'))
  end.

Definition hexdigest (msg : list byte) : string := hex (digest msg).

End MD5.

(* ================================================================== *)
(** * More text operations of the standard library                     *)
(* ================================================================== *)

(** [str.isspace] on a one-character unicode text. *)
Definition is_whitespace (c : ascii) : bool := is_space Py3 c.

(** Line boundaries of [unicode.splitlines]. *)
Definition is_linebreak (c : ascii) : bool :=
  let n := code c in
  ((10 <=? n) && (n <=? 13)) || ((28 <=? n) && (n <=? 30)) || (n =? 133).

(** [s.splitlines()]: a carriage return followed by a line feed is one
    boundary, and a text that ends in a boundary has no empty last line. *)
Fixpoint splitlines_from (cur : string) (s : string) : list string :=
  match s with
  | EmptyString => if (cur =? "")%string then [] else [rev_string "" cur]
  | String c s' =>
      if is_linebreak c then
        match s' with
        | String c2 s'' =>
            if (code c =? 13) && (code c2 =? 10)
            then rev_string "" cur :: splitlines_from "" s''
            else rev_string "" cur :: splitlines_from "" s'
        | EmptyString => rev_string "" cur :: splitlines_from "" s'
        end
      else splitlines_from (String c cur) s'
  end.

Definition splitlines (s : string) : list string := splitlines_from "" s.

(** [s.split()]: the maximal runs of characters that are not whitespace. *)
Fixpoint split_from (cur : string) (s : string) : list string :=
  match s with
  | EmptyString => if (cur =? "")%string then [] else [rev_string "" cur]
  | String c s' =>
      if is_whitespace c then
        if (cur =? "")%string then split_from "" s'
        else rev_string "" cur :: split_from "" s'
      else split_from (String c cur) s'
  end.

Definition split (s : string) : list string := split_from "" s.

(** [os.path.basename p]: what follows the last slash. *)
Fixpoint basename_from (cur : string) (p : string) : string :=
  match p with
  | EmptyString => rev_string "" cur
  | String c p' =>
      if Ascii.eqb c "/" then basename_from "" p' else basename_from (String c cur) p'
  end.

Definition basename (p : string) : string := basename_from "" p.

(** [os.path.join('/shared/images', b)]: an absolute [b] replaces the
    directory. *)
Definition join_shared_images (b : string) : string :=
  match b with
  | String "/" _ => b
  | _ => ("/shared/images/" ++ b)%string
  end.

(** The double quote, for the command lines that contain one. *)
Definition dq : string := String "034" "".

(* ================================================================== *)
(** * The appliance, the world and the monad                           *)
(* ================================================================== *)

Module Image.
Record t := { fullPath : string; version : string; build : string }.
End Image.

Module Volume.
(** [active] is [None] when the attribute is absent. *)
Record t := {
  name : string;
  version : string;
  basebuild : string;
  status : string;
  active : option bool }.
End Volume.

(** What the management API answers at one instant.  The result of
    [exec_cmd] is [None] when it is falsy, and the text of [commandResult]
    otherwise. *)
Record Device := {
  bash : string -> option string;        (* tm.util.bash, by utilCmdArgs *)
  unix_ls : string -> option string;     (* tm.util.unix_ls, by utilCmdArgs *)
  images : list Image.t;                 (* tm.sys.software.images *)
  volumes : list Volume.t;               (* tm.sys.software.volumes *)
  volume_exists : option string -> bool  (* volumes.volume.exists(name=...) *)
}.

Inductive Command :=
| Install (name : string) (volume : option string) (options : list (string * bool))
| Reboot
| RebootVolume (volume : string).

Record Request := {
  uri : string;
  content_type : string;
  content_range : Z * Z * Z;    (* "{}-{}/{}": first, last, total *)
  data : list byte }.

Record World := {
  python : pyver;
  hostname : string;
  now : Z;                              (* time.time(), in seconds *)
  appliance : Z -> option Device;       (* None: the API does not answer *)
  files : string -> option (list byte); (* the regular files of the host *)
  issued : list Command;                (* oldest first *)
  posted : list Request                 (* oldest first *)
}.

Definition set_now (t : Z) (w : World) : World :=
  {| python := python w; hostname := hostname w; now := t;
     appliance := appliance w; files := files w;
     issued := issued w; posted := posted w |}.

Definition add_issued (c : Command) (w : World) : World :=
  {| python := python w; hostname := hostname w; now := now w;
     appliance := appliance w; files := files w;
     issued := issued w ++ [c]; posted := posted w |}.

Definition add_posted (r : Request) (w : World) : World :=
  {| python := python w; hostname := hostname w; now := now w;
     appliance := appliance w; files := files w;
     issued := issued w; posted := posted w ++ [r] |}.

(** The outcome of a call: a value, an exception, or a loop of the model
    that was given too few iterations (shown below never to happen). *)
Inductive result (A : Type) :=
| Ok (a : A)
| Raise (e : exn)
| OutOfFuel.

Arguments Ok {A} a.
Arguments Raise {A} e.
Arguments OutOfFuel {A}.

Definition M (A : Type) : Type := World -> result A * World.

Definition ret {A} (a : A) : M A := fun w => (Ok a, w).

Definition raise {A} (e : exn) : M A := fun w => (Raise e, w).

Definition out_of_fuel {A} : M A := fun w => (OutOfFuel, w).

Definition bind {A B} (m : M A) (k : A -> M B) : M B :=
  fun w =>
    match m w with
    | (Ok a, w') => k a w'
    | (Raise e, w') => (Raise e, w')
    | (OutOfFuel, w') => (OutOfFuel, w')
    end.

Declare Scope monad_scope.
Delimit Scope monad_scope with monad.
Bind Scope monad_scope with M.
Notation "x <- m ;; k" := (bind m (fun x => k))
  (at level 61, m at next level, right associativity) : monad_scope.
Notation "m ;; k" := (bind m (fun _ => k))
  (at level 61, right associativity) : monad_scope.
Open Scope monad_scope.

(** [try: body / except Exception: handler]. *)
Definition try_except {A} (body handler : M A) : M A :=
  fun w =>
    match body w with
    | (Raise _, w') => handler w'
    | r => r
    end.

Definition lift {A} (r : exn + A) : M A :=
  match r with
  | inl e => raise e
  | inr a => ret a
  end.

Definition get_python : M pyver := fun w => (Ok (python w), w).

Definition get_hostname : M string := fun w => (Ok (hostname w), w).

Definition time_time : M Z := fun w => (Ok (now w), w).

Definition time_sleep (d : Z) : M unit := fun w => (Ok tt, set_now (now w + d) w).

(** A query of the management API. *)
Definition remote {A} (f : Device -> A) : M A :=
  fun w =>
    match appliance w (now w) with
    | Some d => (Ok (f d), w)
    | None => (Raise DeviceError, w)
    end.

(** A command sent through the management API. *)
Definition exec_cmd (c : Command) : M unit :=
  remote (fun _ => tt) ;; fun w => (Ok tt, add_issued c w).

(** [requests.post]; the response is not looked at. *)
Definition requests_post (r : Request) : M unit :=
  fun w => (Ok tt, add_posted r w).

(* ------------------------------------------------------------------ *)
(** ** Local files                                                     *)
(* ------------------------------------------------------------------ *)

(** An open binary file: its bytes and the read position. *)
Record fileobj := { content : list byte; position : nat }.

Definition open_rb (bs : list byte) : fileobj := {| content := bs; position := 0 |}.

(** [f.read(n)]: up to [n] bytes from the position, all of them when [n]
    is negative. *)
Definition read (n : Z) (f : fileobj) : list byte * fileobj :=
  let rest := skipn (position f) (content f) in
  let got := if n <? 0 then rest else firstn (Z.to_nat n) rest in
  (got, {| content := content f; position := position f + List.length got |}).

Definition tell (f : fileobj) : Z := Z.of_nat (position f).

Definition os_path_isfile (path : string) : M bool :=
  fun w => (Ok (match files w path with Some _ => true | None => false end), w).

Definition os_path_getsize (path : string) : M Z :=
  fun w =>
    match files w path with
    | Some bs => (Ok (Z.of_nat (List.length bs)), w)
    | None => (Raise OSError, w)
    end.

Definition open_file (path : string) : M fileobj :=
  fun w =>
    match files w path with
    | Some bs => (Ok (open_rb bs), w)
    | None => (Raise OSError, w)
    end.

(* ================================================================== *)
(** * F5Device                                                         *)
(* ================================================================== *)

(** [ManagementRoot(hostname, username, password)] opens a session, which
    needs the API to answer. *)
Definition _reconnect : M unit := remote (fun _ => tt).

Definition vgdisplay_args : string :=
  ("-c " ++ dq ++ "vgdisplay -s --units G" ++ dq)%string.

Definition md5sum_args (filepath : string) : string :=
  ("-c " ++ dq ++ "md5sum " ++ filepath ++ dq)%string.

Definition _get_free_space : M pyval :=
  free_space_output <- remote (fun d => bash d vgdisplay_args) ;;
  py <- get_python ;;
  match free_space_output with
  | Some commandResult =>
      match re_match (free_space_regex py) commandResult with
      | Some group => ret (PyFloat (py_float group))
      | None => ret (PyStr commandResult)
      end
  | None => ret PyNone
  end.

Definition _check_free_space (min_space : Z) : M pyval :=
  free_space <- _get_free_space ;;
  py <- get_python ;;
  if negb (truthy free_space) then raise (ValueError "Could not get free space")
  else
    lt <- lift (int_lt py min_space free_space) ;;
    if lt then ret (PyBool false)
    else
      ge <- lift (int_ge py min_space free_space) ;;
      if ge then ret (PyBool true) else ret PyNone.

Definition _file_copy_remote_md5 (filepath : string) : M pyval :=
  md5sum_output <- remote (fun d => bash d (md5sum_args filepath)) ;;
  match md5sum_output with
  | Some commandResult =>
      match split commandResult with
      | token :: _ => ret (PyStr token)
      | [] => raise IndexError
      end
  | None => ret PyNone
  end.

Definition _file_copy_local_file_exists (filepath : string) : M bool :=
  os_path_isfile filepath.

(** The [hashlib.md5] object is the bytes it was fed: [update] appends, and
    [hexdigest] is the digest of them all. *)
Fixpoint md5_read_loop (fuel : nat) (blocksize : Z) (m : list byte)
         (f : fileobj) (buf : list byte) : option (list byte) :=
  match buf with
  | [] => Some m
  | _ :: _ =>
      match fuel with
      | O => None
      | S fuel' =>
          let m := m ++ buf in
          let '(buf, f) := read blocksize f in
          md5_read_loop fuel' blocksize m f buf
      end
  end.

Definition default_blocksize : Z := 2 ^ 20.

Definition _file_copy_local_md5 (filepath : string) (blocksize : Z) : M pyval :=
  present <- _file_copy_local_file_exists filepath ;;
  if present then
    f <- open_file filepath ;;
    let '(buf, f') := read blocksize f in
    match md5_read_loop (List.length (content f)) blocksize [] f' buf with
    | Some m => ret (PyStr (MD5.hexdigest m))
    | None => out_of_fuel
    end
  else ret PyNone.

Definition _check_md5sum (filename : string) (checksum : pyval) : M bool :=
  md5sum <- _file_copy_remote_md5 filename ;;
  if py_eq checksum md5sum then ret true else ret false.

Definition _image_exists (image_name : string) : M pyval :=
  all_images_output <- remote (fun d => unix_ls d "/shared/images") ;;
  match all_images_output with
  | Some commandResult =>
      let all_images := splitlines commandResult in
      if existsb (String.eqb image_name) all_images
      then ret (PyBool true) else ret (PyBool false)
  | None => ret PyNone
  end.

Definition _volume_exists (volume_name : option string) : M bool :=
  remote (fun d => volume_exists d volume_name).

Definition _get_volumes : M (list Volume.t) := remote volumes.

Definition _get_images : M (list Image.t) := remote images.

(** [hasattr(v, 'active') and v.active is True] *)
Definition is_active (v : Volume.t) : bool :=
  match Volume.active v with
  | Some true => true
  | _ => false
  end.

Definition _get_active_volume : M (option string) :=
  volumes <- _get_volumes ;;
  match find is_active volumes with
  | Some _volume => ret (Some (Volume.name _volume))
  | None => ret None
  end.

Definition _image_install (image_name : string) (volume : option string) : M unit :=
  present <- _volume_exists volume ;;
  let create_volume := negb present in
  let options := if create_volume then [("create-volume", true)] else [] in
  exec_cmd (Install image_name volume options).

Definition opt_eqb (a b : option string) : bool :=
  match a, b with
  | Some x, Some y => (x =? y)%string
  | None, None => true
  | _, _ => false
  end.

(** The condition of the loop over the volumes. *)
Definition holds_image (image : Image.t) (volume : option string)
           (_volume : Volume.t) : bool :=
  opt_eqb (Some (Volume.name _volume)) volume
  && (Volume.version _volume =? Image.version image)%string
  && (Volume.basebuild _volume =? Image.build image)%string
  && (Volume.status _volume =? "complete")%string.

(** The loop over the images keeps the last one of the given name. *)
Definition select_image (image_name : string) (images_on_device : list Image.t)
  : option Image.t :=
  fold_left
    (fun image _image =>
       if (Image.fullPath _image =? image_name)%string then Some _image else image)
    images_on_device None.

(** [if image:] holds for every image object, so it is the test that one
    was found. *)
Definition _image_installed (image_name : string) (volume : option string) : M bool :=
  images_on_device <- _get_images ;;
  match select_image image_name images_on_device with
  | Some image =>
      volumes <- _get_volumes ;;
      ret (existsb (holds_image image volume) volumes)
  | None => ret false
  end.

Fixpoint install_poll (fuel : nat) (image_name : string) (volume : option string)
         (end_time : Z) : M bool :=
  match fuel with
  | O => out_of_fuel
  | S fuel' =>
      t <- time_time ;;
      if t <? end_time then
        time_sleep 20 ;;
        installed <- _image_installed image_name volume ;;
        if installed then ret true
        else install_poll fuel' image_name volume end_time
      else ret false
  end.

Definition _wait_for_image_installed (image_name : string) (volume : option string)
           (timeout : Z) : M bool :=
  t <- time_time ;;
  let end_time := t + timeout in
  install_poll (S (Z.to_nat timeout)) image_name volume end_time.

Definition _image_match (image_name : string) (checksum : pyval) : M bool :=
  found <- _image_exists image_name ;;
  if truthy found then
    let image := join_shared_images image_name in
    same <- _check_md5sum image checksum ;;
    if same then ret true else ret false
  else ret false.

Definition _reboot_to_volume (volume_name : option string) : M unit :=
  match volume_name with
  | Some v => if negb (v =? "")%string then exec_cmd (RebootVolume v) else exec_cmd Reboot
  | None => exec_cmd Reboot
  end.

(** [volumes.volume.load(name=...)]: fails when no volume has the name. *)
Definition load_volume (volume_name : option string) : M Volume.t :=
  vs <- remote volumes ;;
  match find (fun v => opt_eqb (Some (Volume.name v)) volume_name) vs with
  | Some v => ret v
  | None => raise DeviceError
  end.

Fixpoint reboot_poll (fuel : nat) (volume_name : option string) (end_time : Z)
  : M bool :=
  match fuel with
  | O => out_of_fuel
  | S fuel' =>
      t <- time_time ;;
      if t <? end_time then
        time_sleep 5 ;;
        up <- try_except
                (_reconnect ;;
                 volume <- load_volume volume_name ;;
                 ret (is_active volume))
                (ret false) ;;
        if up then ret true else reboot_poll fuel' volume_name end_time
      else ret false
  end.

Definition _wait_for_device_reboot (volume_name : option string) (timeout : Z)
  : M bool :=
  t <- time_time ;;
  let end_time := t + timeout in
  reboot_poll (S (Z.to_nat timeout)) volume_name end_time.

Definition chunk_size : Z := 512 * 1024.

Fixpoint upload_loop (chunk_size : Z) (fuel : nat) (_URI : string) (size : Z)
         (fileobj : fileobj) (start : Z) : M unit :=
  match fuel with
  | O => out_of_fuel
  | S fuel' =>
      let '(payload, fileobj) := read chunk_size fileobj in
      match payload with
      | [] => ret tt
      | _ :: _ =>
          let end_ := tell fileobj in
          let end_ := if end_ <? chunk_size then size else end_ in
          requests_post {| uri := _URI;
                           content_type := "application/octet-stream";
                           content_range := (start, end_ - 1, size);
                           data := payload |} ;;
          upload_loop chunk_size fuel' _URI size fileobj
                      (start + Z.of_nat (List.length payload))
      end
  end.

Definition upload_uri (host image_filename : string) : string :=
  ("https://" ++ host ++ "/mgmt/cm/autodeploy/software-image-uploads/"
   ++ image_filename)%string.

Definition _upload_image (image_filepath : string) : M unit :=
  let image_filename := basename image_filepath in
  host <- get_hostname ;;
  let _URI := upload_uri host image_filename in
  size <- os_path_getsize image_filepath ;;
  fileobj <- open_file image_filepath ;;
  upload_loop chunk_size (S (List.length (content fileobj))) _URI size fileobj 0.

Definition truthy_opt (x : option string) : bool :=
  match x with
  | Some s => negb (s =? "")%string
  | None => false
  end.

Definition images_only : string :=
  "Support only for images - destination is always /shared/images".


Definition file_copy_remote_exists (src : string) (dest : option string) : M bool :=
  if truthy_opt dest then raise (NotImplementedError images_only)
  else
    local_md5sum <- _file_copy_local_md5 src default_blocksize ;;
    let file_basename := basename src in
    matched <- _image_match file_basename local_md5sum ;;
    if negb matched then ret false else ret true.

Definition reboot (timer : Z) (confirm : bool) (volume : option string) : M unit :=
  active_volume <- _get_active_volume ;;
  let volume_name := if opt_eqb active_volume volume then None else volume in
  _reboot_to_volume volume_name ;;
  rebooted <- _wait_for_device_reboot volume 600 ;;
  if negb rebooted
  then raise (RuntimeError ("Reboot to volume " ++ py_str volume ++ " failed")%string)
  else ret tt.

Definition get_boot_options : M (list (string * option string)) :=
  active_volume <- _get_active_volume ;;
  ret [("active_volume", active_volume)].

Definition set_boot_options (image_name : string) (volume : option string) : M unit :=
  free_space <- _check_free_space 6 ;;
  if negb (truthy free_space)
  then raise (RuntimeError "Not enough free space to install OS")
  else
    _image_install image_name volume ;;
    installed <- _wait_for_image_installed image_name volume 900 ;;
    if negb installed
    then raise (RuntimeError ("Installation of " ++ py_str volume ++ " failed")%string)
    else ret tt.

(* ================================================================== *)
(** * Observations and sample worlds used in the statements            *)
(* ================================================================== *)

(** What one probe of the install wait sees on a device that answers. *)
Definition installed_on (d : Device) (image_name : string) (volume : option string)
  : bool :=
  match select_image image_name (images d) with
  | Some image => existsb (holds_image image volume) (volumes d)
  | None => false
  end.

(** What one probe of the reboot wait sees: the volume loaded and active.
    An appliance that does not answer, or has no such volume, makes the
    probe raise. *)
Definition probe_reboot (d : option Device) (volume_name : option string)
  : option bool :=
  match d with
  | Some d =>
      match find (fun v => opt_eqb (Some (Volume.name v)) volume_name) (volumes d) with
      | Some v => Some (is_active v)
      | None => None
      end
  | None => None
  end.

Definition seen_active (d : option Device) (volume_name : option string) : bool :=
  match probe_reboot d volume_name with
  | Some true => true
  | _ => false
  end.

(** The number of probes a wait of the given interval makes before it
    gives up: the deadline is tested before each sleep. *)
Definition probes (interval timeout : Z) : Z :=
  if timeout <=? 0 then 0 else (timeout + interval - 1) / interval.

Definition float_le_int (f : pyfloat) (m : Z) : bool :=
  match f with
  | Finite q => Qle_bool q (inject_Z m)
  | Infinity => false
  end.

Definition iso : string := "BIGIP-11.6.0.0.0.401.iso".

Definition iso_image : Image.t :=
  {| Image.fullPath := iso; Image.version := "11.6.0"; Image.build := "0.0.401" |}.

Definition hd1_1 (is_active : bool) : Volume.t :=
  {| Volume.name := "HD1.1"; Volume.version := "11.5.4";
     Volume.basebuild := "0.0.256"; Volume.status := "complete";
     Volume.active := if is_active then Some true else None |}.

Definition hd1_2 (done is_active : bool) : Volume.t :=
  {| Volume.name := "HD1.2"; Volume.version := "11.6.0";
     Volume.basebuild := "0.0.401";
     Volume.status := if done then "complete" else "installing 40.000 pct";
     Volume.active := if is_active then Some true else None |}.

(** The report of the docstring of [_get_free_space], with the given text
    in the place of the free space. *)
Definition vg_report (free : string) : string :=
  (dq ++ "vg-db-sda" ++ dq ++ " 30.98 GB  [23.89 GB  used / " ++ free ++ " GB free]")%string.

(** An appliance with the image in its store; [md5sum] answers for the
    image with the digest of the local file. *)
Definition lab_device (report : option string) (listing : option string)
           (vols : list Volume.t) : Device :=
  {| bash := fun args =>
       if (args =? vgdisplay_args)%string then report
       else if (args =? md5sum_args ("/shared/images/" ++ iso))%string
            then Some ("cc9a88266f41ac0e2375972a36975a0c  /shared/images/" ++ iso)%string
            else None;
     unix_ls := fun args => if (args =? "/shared/images")%string then listing else None;
     images := [iso_image];
     volumes := vols;
     volume_exists := fun n => existsb (fun v => opt_eqb (Some (Volume.name v)) n) vols |}.

Definition lab_files (path : string) : option (list byte) :=
  if (path =? "/tmp/" ++ iso)%string then Some [x42; x49; x47; x49; x50]%byte else None.

Definition lab_world (py : pyver) (app : Z -> option Device) : World :=
  {| python := py; hostname := "f5.example.net"; now := 0; appliance := app;
     files := lab_files; issued := []; posted := [] |}.

(** A steady appliance that reports the given free space. *)
Definition steady (py : pyver) (free : string) : World :=
  lab_world py (fun _ => Some (lab_device (Some (vg_report free))
                                          (Some iso) [hd1_1 true; hd1_2 false false])).

(** An appliance on which the installation on HD1.2 completes at [t_done]
    seconds. *)
Definition installing (free : string) (t_done : Z) : World :=
  lab_world Py3
    (fun t => Some (lab_device (Some (vg_report free)) (Some iso)
                               [hd1_1 true; hd1_2 (t_done <=? t) false])).

(** An appliance that answers at the start, is away while it restarts and
    is back at [t_back] seconds with HD1.2 active. *)
Definition restarting (t_back : Z) : World :=
  lab_world Py3
    (fun t =>
       if t <=? 0 then Some (lab_device None None [hd1_1 true; hd1_2 true false])
       else if t <? t_back then None
       else Some (lab_device None None [hd1_1 false; hd1_2 true true])).

(* ================================================================== *)
(** * The two waits as one bounded poll                                *)
(* ================================================================== *)

(** The shape both waits share: test the deadline, sleep, probe. *)
Fixpoint poll (interval : Z) (probe : M bool) (fuel : nat) (end_time : Z) : M bool :=
  match fuel with
  | O => out_of_fuel
  | S fuel' =>
      t <- time_time ;;
      if t <? end_time then
        time_sleep interval ;;
        hit <- probe ;;
        if hit then ret true else poll interval probe fuel' end_time
      else ret false
  end.

(** The probe of the reboot wait: the body of its [try], with the handler
    that passes. *)
Definition reboot_probe (volume_name : option string) : M bool :=
  try_except
    (_reconnect ;;
     volume <- load_volume volume_name ;;
     ret (is_active volume))
    (ret false).

(** A run of [n] probes from time [t], given what a probe yields at each
    instant: the outcome and the time at which the wait ends. *)
Fixpoint poll_outcome (obs : Z -> result bool) (interval t : Z) (n : nat)
  : result bool * Z :=
  match n with
  | O => (Ok false, t)
  | S n' =>
      match obs (t + interval) with
      | Ok true => (Ok true, t + interval)
      | Ok false => poll_outcome obs interval (t + interval) n'
      | other => (other, t + interval)
      end
  end.

(** What the probe of the install wait yields at time [t]. *)
Definition install_obs (w : World) (image_name : string) (volume : option string)
           (t : Z) : result bool :=
  match appliance w t with
  | Some d => Ok (installed_on d image_name volume)
  | None => Raise DeviceError
  end.

(** What the probe of the reboot wait yields at time [t]: every error has
    become "not yet". *)
Definition reboot_obs (w : World) (volume_name : option string) (t : Z) : result bool :=
  Ok (seen_active (appliance w t) volume_name).

(** The name [_get_active_volume] returns on a device. *)
Definition active_volume_of (d : Device) : option string :=
  option_map Volume.name (find is_active (volumes d)).

(** The command [_reboot_to_volume] sends. *)
Definition reboot_command (volume_name : option string) : Command :=
  match volume_name with
  | Some v => if negb (v =? "")%string then RebootVolume v else Reboot
  | None => Reboot
  end.

(** The requests of an upload, added to the world in order. *)
Definition post_all (reqs : list Request) (w : World) : World :=
  fold_left (fun w r => add_posted r w) reqs w.

Definition ceil_div (a b : Z) : Z := (a + b - 1) / b.

(* ================================================================== *)
(** * More sample worlds                                               *)
(* ================================================================== *)

(** Every character of [s] satisfies [p]. *)
Fixpoint all_chars (p : ascii -> bool) (s : string) : bool :=
  match s with
  | EmptyString => true
  | String c s' => p c && all_chars p s'
  end.

(** An appliance that lists the image but whose shell commands have no
    result. *)
Definition quiet_device : Device :=
  {| bash := fun _ => None;
     unix_ls := fun args => if (args =? "/shared/images")%string then Some iso else None;
     images := [iso_image];
     volumes := [hd1_1 true; hd1_2 false false];
     volume_exists := fun _ => true |}.

(** An appliance that shows two images of the same full path, the older
    one first. *)
Definition twin_device : Device :=
  {| bash := fun _ => None;
     unix_ls := fun _ => None;
     images := [ {| Image.fullPath := iso; Image.version := "11.5.4";
                    Image.build := "0.0.256" |}; iso_image ];
     volumes := [hd1_1 true; hd1_2 true false];
     volume_exists := fun _ => true |}.

(** A float that is not negative. *)
Definition float_nonneg (f : pyfloat) : Prop :=
  match f with
  | Finite q => (0 <= q)%Q
  | Infinity => True
  end.

(* ================================================================== *)
(** * Properties                                                       *)
(* ================================================================== *)

(** ** The matcher, [float] and MD5 on known inputs *)

Example re_match_docstring :
  re_match (free_space_regex Py2) (vg_report "7.10") = Some "7.10".
Proof. reflexivity. Qed.

Example re_match_one_digit : re_match (free_space_regex Py3) (vg_report "7") = None.
Proof. reflexivity. Qed.

Example re_match_last_wins :
  re_match (free_space_regex Py3) " / 1.5 GB free / 2.5 GB free" = Some "2.5".
Proof. reflexivity. Qed.

Example re_match_first_line_only :
  re_match (free_space_regex Py3) (String "010" (vg_report "7.10")) = None.
Proof. reflexivity. Qed.

Example py_float_7_10 :
  exists q, py_float "7.10" = Finite q /\ (q == 3996944669291315 # 562949953421312)%Q.
Proof. eexists. split; [vm_compute; reflexivity | reflexivity]. Qed.

Example py_float_rounds :
  exists q, py_float "6.00000000000000000000001" = Finite q /\ (q == 6)%Q.
Proof. eexists. split; [vm_compute; reflexivity | reflexivity]. Qed.

Example md5_empty : MD5.hexdigest [] = "d41d8cd98f00b204e9800998ecf8427e".
Proof. vm_compute. reflexivity. Qed.

Example md5_abc : MD5.hexdigest [x61; x62; x63]%byte = "900150983cd24fb0d6963f7d28e17f72".
Proof. vm_compute. reflexivity. Qed.

Example md5_two_blocks :
  MD5.hexdigest (repeat x61%byte 70) = "0f5c6c4e740bfcc08c3c26ccb2673d46".
Proof. vm_compute. reflexivity. Qed.

Example splitlines_ex :
  splitlines (String "a" (String "013" (String "010" (String "b" (String "010" "")))))
  = ["a"; "b"].
Proof. reflexivity. Qed.

Example basename_ex : basename ("/tmp/" ++ iso)%string = iso.
Proof. reflexivity. Qed.

(** ** The monad *)

Lemma bind_ok {A B} (m : M A) (k : A -> M B) w a w' :
  m w = (Ok a, w') -> bind m k w = k a w'.
Proof. intros H. unfold bind. now rewrite H. Qed.

Lemma bind_raise {A B} (m : M A) (k : A -> M B) w e w' :
  m w = (Raise e, w') -> bind m k w = (Raise e, w').
Proof. intros H. unfold bind. now rewrite H. Qed.

Lemma remote_ok {A} (f : Device -> A) w d :
  appliance w (now w) = Some d -> remote f w = (Ok (f d), w).
Proof. intros H. unfold remote. now rewrite H. Qed.

Lemma remote_down {A} (f : Device -> A) w :
  appliance w (now w) = None -> remote f w = (Raise DeviceError, w).
Proof. intros H. unfold remote. now rewrite H. Qed.

(** ** Free space *)

Lemma get_free_space_ok w d :
  appliance w (now w) = Some d ->
  _get_free_space w =
  (Ok match bash d vgdisplay_args with
      | Some commandResult =>
          match re_match (free_space_regex (python w)) commandResult with
          | Some group => PyFloat (py_float group)
          | None => PyStr commandResult
          end
      | None => PyNone
      end, w).
Proof.
  intros H. unfold _get_free_space.
  rewrite (bind_ok _ _ _ _ _ (remote_ok _ w d H)).
  unfold bind, get_python.
  destruct (bash d vgdisplay_args) as [r|]; [|reflexivity].
  destruct (re_match (free_space_regex (python w)) r); reflexivity.
Qed.

Lemma get_free_space_keeps_world w v w' :
  _get_free_space w = (Ok v, w') -> w' = w.
Proof.
  unfold _get_free_space, bind, remote, get_python.
  destruct (appliance w (now w)) as [d|]; [|discriminate].
  destruct (bash d vgdisplay_args) as [r|].
  - destruct (re_match (free_space_regex (python w)) r); unfold ret; congruence.
  - unfold ret; congruence.
Qed.

Lemma check_free_space_finite (w w' : World) (q : Q) (m : Z) :
  _get_free_space w = (Ok (PyFloat (Finite q)), w') ->
  ~ (q == 0)%Q ->
  _check_free_space m w = (Ok (PyBool (Qle_bool q (inject_Z m))), w').
Proof.
  intros Hget Hnz. unfold _check_free_space.
  rewrite (bind_ok _ _ _ _ _ Hget).
  unfold bind at 1. unfold get_python. cbn [truthy].
  destruct (Qeq_bool q 0) eqn:Hz.
  - exfalso. apply Hnz. now apply Qeq_bool_iff.
  - cbn [negb int_lt int_ge lift]. unfold bind, ret.
    destruct (Qle_bool q (inject_Z m)); reflexivity.
Qed.

(** C2, as the code has it: for every parsed free space [q] other than zero
    and every minimum [m], [_check_free_space m] returns [False] when
    [q > m] and [True] when [q <= m]; at the boundary [q == m] it returns
    [True], the value it returns when the space is below the minimum. *)
Theorem check_free_space_threshold (w w' : World) (q : Q) (m : Z) :
  _get_free_space w = (Ok (PyFloat (Finite q)), w') ->
  ~ (q == 0)%Q ->
  _check_free_space m w = (Ok (PyBool (Qle_bool q (inject_Z m))), w')
  /\ ((inject_Z m < q)%Q -> Qle_bool q (inject_Z m) = false)
  /\ ((q <= inject_Z m)%Q -> Qle_bool q (inject_Z m) = true).
Proof.
  intros Hget Hnz. split; [now apply check_free_space_finite|]. split.
  - intros Hlt. destruct (Qle_bool q (inject_Z m)) eqn:E; [|reflexivity].
    apply Qle_bool_iff in E. exfalso. exact (Qlt_not_le _ _ Hlt E).
  - intros Hle. now apply Qle_bool_iff.
Qed.

Lemma check_free_space_threshold_witness :
  _check_free_space 6 (steady Py3 "7.10") = (Ok (PyBool false), steady Py3 "7.10").
Proof.
  refine (proj1 (check_free_space_threshold (steady Py3 "7.10") (steady Py3 "7.10")
                   (7993889338582630 # 1125899906842624) 6 _ _)).
  - vm_compute. reflexivity.
  - intros H. discriminate H.
Defined.

(** C2 as claimed fails at the boundary: with 6.00 GB free and a minimum of
    6 the result is [True], as it is with 5.00 GB free, and not [False], as
    it is with 7.10 GB free. *)
Lemma check_free_space_boundary :
  (exists q, fst (_get_free_space (steady Py3 "6.00")) = Ok (PyFloat (Finite q))
             /\ (q == inject_Z 6)%Q)
  /\ fst (_check_free_space 6 (steady Py3 "6.00")) = Ok (PyBool true)
  /\ fst (_check_free_space 6 (steady Py3 "5.00")) = Ok (PyBool true)
  /\ fst (_check_free_space 6 (steady Py3 "7.10")) = Ok (PyBool false).
Proof.
  split; [|repeat split; vm_compute; reflexivity].
  eexists. split; [vm_compute; reflexivity | reflexivity].
Qed.

Lemma check_free_space_infinite (w w' : World) (m : Z) :
  _get_free_space w = (Ok (PyFloat Infinity), w') ->
  _check_free_space m w = (Ok (PyBool false), w').
Proof.
  intros Hget. unfold _check_free_space.
  rewrite (bind_ok _ _ _ _ _ Hget). reflexivity.
Qed.

(** A report that shows no free space at all parses, and is answered with
    the error meant for a report that does not. *)
Lemma check_free_space_zero (w w' : World) (q : Q) (m : Z) :
  _get_free_space w = (Ok (PyFloat (Finite q)), w') ->
  (q == 0)%Q ->
  _check_free_space m w = (Raise (ValueError "Could not get free space"), w').
Proof.
  intros Hget Hz. unfold _check_free_space.
  rewrite (bind_ok _ _ _ _ _ Hget).
  unfold bind at 1. unfold get_python. cbn [truthy].
  apply Qeq_bool_iff in Hz. rewrite Hz. reflexivity.
Qed.

Example check_free_space_zero_ex :
  fst (_check_free_space 6 (steady Py3 "0.00"))
  = Raise (ValueError "Could not get free space").
Proof. vm_compute. reflexivity. Qed.

(** C9: a report that is not empty and does not match the pattern does not
    make [_check_free_space] raise its [ValueError]: the raw text is compared
    with the minimum, which under Python 2 yields [False] and under
    Python 3 raises [TypeError]. *)
Theorem unparsable_report_is_compared (w : World) (d : Device) (report : string) (m : Z) :
  appliance w (now w) = Some d ->
  bash d vgdisplay_args = Some report ->
  report <> "" ->
  re_match (free_space_regex (python w)) report = None ->
  _check_free_space m w =
  (match python w with
   | Py2 => Ok (PyBool false)
   | Py3 => Raise TypeError
   end, w).
Proof.
  intros Hd Hr Hne Hre. unfold _check_free_space.
  rewrite (bind_ok _ _ _ _ _ (get_free_space_ok w d Hd)).
  rewrite Hr, Hre. unfold bind at 1. unfold get_python. cbn [truthy].
  destruct (String.eqb_spec report "") as [E|_]; [contradiction|].
  cbn [negb int_lt]. destruct (python w); reflexivity.
Qed.

Lemma unparsable_report_is_compared_witness :
  _check_free_space 6 (steady Py3 "7") = (Raise TypeError, steady Py3 "7")
  /\ _check_free_space 6 (steady Py2 "7") = (Ok (PyBool false), steady Py2 "7").
Proof.
  split.
  - apply (unparsable_report_is_compared (steady Py3 "7")
             (lab_device (Some (vg_report "7")) (Some iso) [hd1_1 true; hd1_2 false false])
             (vg_report "7") 6);
      [reflexivity | reflexivity | discriminate | reflexivity].
  - apply (unparsable_report_is_compared (steady Py2 "7")
             (lab_device (Some (vg_report "7")) (Some iso) [hd1_1 true; hd1_2 false false])
             (vg_report "7") 6);
      [reflexivity | reflexivity | discriminate | reflexivity].
Defined.

(** The [ValueError] is raised when the command has no result, or an empty
    one. *)
Lemma check_free_space_no_output (w : World) (d : Device) (m : Z) :
  appliance w (now w) = Some d ->
  bash d vgdisplay_args = None \/ bash d vgdisplay_args = Some "" ->
  _check_free_space m w = (Raise (ValueError "Could not get free space"), w).
Proof.
  intros Hd Hr. unfold _check_free_space.
  rewrite (bind_ok _ _ _ _ _ (get_free_space_ok w d Hd)).
  destruct Hr as [Hr|Hr]; rewrite Hr.
  - reflexivity.
  - destruct (python w); reflexivity.
Qed.

(** ** Bounded polling *)

Lemma set_now_same w : set_now (now w) w = w.
Proof. destruct w; reflexivity. Qed.

Lemma probes_none interval timeout : timeout <= 0 -> probes interval timeout = 0.
Proof. intros H. unfold probes. destruct (Z.leb_spec timeout 0); lia. Qed.

Lemma probes_step interval timeout :
  0 < interval -> 0 < timeout ->
  1 <= probes interval timeout /\
  probes interval (timeout - interval) = probes interval timeout - 1.
Proof.
  intros Hi Ht. unfold probes.
  destruct (Z.leb_spec timeout 0); [lia|].
  replace (timeout + interval - 1) with (timeout - 1 + 1 * interval) by lia.
  rewrite Z.div_add by lia.
  assert (0 <= (timeout - 1) / interval) by (apply Z.div_pos; lia).
  split; [lia|].
  destruct (Z.leb_spec (timeout - interval) 0).
  - assert ((timeout - 1) / interval = 0) by (apply Z.div_small; lia). lia.
  - replace (timeout - interval + interval - 1) with (timeout - 1) by lia. lia.
Qed.

Lemma probes_le_timeout interval timeout :
  0 < interval -> probes interval timeout <= Z.max 0 timeout.
Proof.
  intros Hi. unfold probes.
  destruct (Z.leb_spec timeout 0); [lia|].
  apply Z.div_le_upper_bound; nia.
Qed.

(** The loop, run with enough fuel, is the run of its probes. *)
Lemma poll_run (interval end_time : Z) (probe : M bool) (obs : Z -> result bool)
      (w0 : World) :
  0 < interval ->
  (forall w, appliance w = appliance w0 -> probe w = (obs (now w), w)) ->
  forall (n fuel : nat) (w : World),
    appliance w = appliance w0 ->
    n = Z.to_nat (probes interval (end_time - now w)) ->
    (n < fuel)%nat ->
    poll interval probe fuel end_time w =
    (fst (poll_outcome obs interval (now w) n),
     set_now (snd (poll_outcome obs interval (now w) n)) w).
Proof.
  intros Hi Hprobe. induction n as [|n IH]; intros fuel w Happ Hn Hfuel.
  - destruct fuel as [|fuel]; [lia|].
    cbn [poll poll_outcome fst snd]. unfold bind, time_time.
    destruct (Z.ltb_spec (now w) end_time) as [Hlt|Hge].
    + destruct (probes_step interval (end_time - now w)); lia.
    + now rewrite set_now_same.
  - destruct fuel as [|fuel]; [lia|].
    destruct (Z.ltb_spec (now w) end_time) as [Hlt|Hge].
    2:{ rewrite probes_none in Hn by lia. discriminate Hn. }
    destruct (probes_step interval (end_time - now w)) as [_ Hstep]; [lia|lia|].
    cbn [poll poll_outcome]. unfold bind at 1. unfold time_time.
    apply Z.ltb_lt in Hlt. rewrite Hlt.
    unfold bind at 1. unfold time_sleep.
    unfold bind at 1.
    rewrite (Hprobe (set_now (now w + interval) w) Happ).
    cbn [now set_now].
    destruct (obs (now w + interval)) as [[|]|e|]; try reflexivity.
    rewrite (IH fuel (set_now (now w + interval) w)); [reflexivity|exact Happ| |lia].
    cbn [now set_now].
    replace (end_time - (now w + interval)) with (end_time - now w - interval) by lia.
    rewrite Hstep. lia.
Qed.

(** Probes that all miss are skipped. *)
Lemma poll_outcome_skip (obs : Z -> result bool) (interval : Z) :
  forall (j n : nat) (t : Z),
    (j <= n)%nat ->
    (forall k, 1 <= k <= Z.of_nat j -> obs (t + interval * k) = Ok false) ->
    poll_outcome obs interval t n =
    poll_outcome obs interval (t + interval * Z.of_nat j) (n - j).
Proof.
  induction j as [|j IH]; intros n t Hj Hmiss.
  - replace (t + interval * Z.of_nat 0) with t by lia.
    now rewrite Nat.sub_0_r.
  - destruct n as [|n]; [lia|].
    cbn [poll_outcome].
    replace (t + interval) with (t + interval * 1) by lia.
    rewrite (Hmiss 1) by lia.
    rewrite (IH n (t + interval * 1)); [|lia|].
    + f_equal. lia.
    + intros k Hk.
      replace (t + interval * 1 + interval * k) with (t + interval * (k + 1)) by lia.
      apply Hmiss. lia.
Qed.

(** When no probe raises, the run ends in a boolean, which is true exactly
    when some probe saw true. *)
Lemma poll_outcome_total (obs : Z -> result bool) (interval : Z) :
  (forall t, exists b, obs t = Ok b) ->
  forall (n : nat) (t : Z),
    exists b, fst (poll_outcome obs interval t n) = Ok b /\
              (b = true <->
               exists k, 1 <= k <= Z.of_nat n /\ obs (t + interval * k) = Ok true).
Proof.
  intros Htot. induction n as [|n IH]; intros t.
  - exists false. split; [reflexivity|]. split; [discriminate|].
    intros [k [Hk _]]. lia.
  - cbn [poll_outcome].
    destruct (Htot (t + interval)) as [b Hb]. rewrite Hb. destruct b.
    + exists true. split; [reflexivity|]. split; [|reflexivity].
      intros _. exists 1. split; [lia|]. now replace (t + interval * 1) with (t + interval) by lia.
    + destruct (IH (t + interval)) as [b [Hres Hiff]].
      exists b. split; [exact Hres|]. rewrite Hiff. split.
      * intros [k [Hk Hobs]]. exists (k + 1). split; [lia|].
        now replace (t + interval * (k + 1)) with (t + interval + interval * k) by lia.
      * intros [k [Hk Hobs]].
        assert (k = 1 \/ 2 <= k) as [->|Hk2] by lia.
        -- replace (t + interval * 1) with (t + interval) in Hobs by lia. congruence.
        -- exists (k - 1). split; [lia|].
           now replace (t + interval + interval * (k - 1)) with (t + interval * k) by lia.
Qed.

Lemma install_poll_is_poll image_name volume end_time :
  forall fuel w,
    install_poll fuel image_name volume end_time w =
    poll 20 (_image_installed image_name volume) fuel end_time w.
Proof.
  induction fuel as [|fuel IH]; intros w; [reflexivity|].
  cbn [install_poll poll]. unfold bind, time_time, time_sleep.
  destruct (now w <? end_time); [|reflexivity].
  destruct (_image_installed image_name volume (set_now (now w + 20) w)) as [[[|]|e|] w'];
    try reflexivity.
  apply IH.
Qed.

Lemma reboot_poll_is_poll volume_name end_time :
  forall fuel w,
    reboot_poll fuel volume_name end_time w =
    poll 5 (reboot_probe volume_name) fuel end_time w.
Proof.
  induction fuel as [|fuel IH]; intros w; [reflexivity|].
  cbn [reboot_poll poll]. fold (reboot_probe volume_name).
  unfold bind, time_time, time_sleep.
  destruct (now w <? end_time); [|reflexivity].
  destruct (reboot_probe volume_name (set_now (now w + 5) w)) as [[[|]|e|] w'];
    try reflexivity.
  apply IH.
Qed.

Lemma image_installed_obs image_name volume w :
  _image_installed image_name volume w = (install_obs w image_name volume (now w), w).
Proof.
  unfold _image_installed, install_obs, installed_on, _get_images, _get_volumes.
  unfold bind, remote.
  destruct (appliance w (now w)) as [d|] eqn:Hd; [|reflexivity].
  destruct (select_image image_name (images d)); [|reflexivity].
  rewrite Hd. reflexivity.
Qed.

Lemma reboot_probe_obs volume_name w :
  reboot_probe volume_name w = (reboot_obs w volume_name (now w), w).
Proof.
  unfold reboot_probe, reboot_obs, seen_active, probe_reboot, try_except.
  unfold _reconnect, load_volume, bind, remote.
  destruct (appliance w (now w)) as [d|] eqn:Hd; [|reflexivity].
  rewrite Hd.
  destruct (find _ (volumes d)) as [v|]; [|reflexivity].
  unfold ret. destruct (is_active v); reflexivity.
Qed.

(** ** The install wait *)

Lemma wait_for_image_installed_run image_name volume timeout w :
  _wait_for_image_installed image_name volume timeout w =
  (fst (poll_outcome (install_obs w image_name volume) 20 (now w)
                     (Z.to_nat (probes 20 timeout))),
   set_now (snd (poll_outcome (install_obs w image_name volume) 20 (now w)
                              (Z.to_nat (probes 20 timeout)))) w).
Proof.
  unfold _wait_for_image_installed, bind, time_time.
  rewrite install_poll_is_poll.
  apply (poll_run 20 (now w + timeout) _ (install_obs w image_name volume) w).
  - lia.
  - intros w' Happ. rewrite image_installed_obs. unfold install_obs.
    now rewrite Happ.
  - reflexivity.
  - f_equal. f_equal. lia.
  - pose proof (probes_le_timeout 20 timeout). lia.
Qed.

(** The run of the probes when the first hit is the [N]-th probe. *)
Lemma poll_outcome_first_hit (obs : Z -> result bool) (interval t : Z) (N : Z) (n : nat) :
  1 <= N ->
  (forall k, 1 <= k <= N -> obs (t + interval * k) = Ok (k =? N)) ->
  poll_outcome obs interval t n =
  if N <=? Z.of_nat n then (Ok true, t + interval * N)
  else (Ok false, t + interval * Z.of_nat n).
Proof.
  intros HN Hobs. destruct (Z.leb_spec N (Z.of_nat n)) as [Hle|Hgt].
  - rewrite (poll_outcome_skip obs interval (Z.to_nat (N - 1)) n t).
    + destruct (n - Z.to_nat (N - 1))%nat as [|m] eqn:Hm; [lia|].
      cbn [poll_outcome]. rewrite Z2Nat.id by lia.
      replace (t + interval * (N - 1) + interval) with (t + interval * N) by ring.
      rewrite Hobs by lia. now rewrite Z.eqb_refl.
    + lia.
    + intros k Hk. rewrite Hobs by lia.
      destruct (Z.eqb_spec k N); [lia|reflexivity].
  - rewrite (poll_outcome_skip obs interval n n t).
    + now rewrite Nat.sub_diag.
    + lia.
    + intros k Hk. rewrite Hobs by lia.
      destruct (Z.eqb_spec k N); [lia|reflexivity].
Qed.

Lemma probes_reach interval timeout N :
  0 < interval -> 1 <= N ->
  (N <=? Z.of_nat (Z.to_nat (probes interval timeout))) = (interval * (N - 1) <? timeout).
Proof.
  intros Hi HN. unfold probes.
  assert (0 <= interval * (N - 1)) as Hnn by (apply Z.mul_nonneg_nonneg; lia).
  destruct (Z.leb_spec timeout 0) as [H0|H0].
  - cbn. destruct (Z.leb_spec N 0); destruct (Z.ltb_spec (interval * (N - 1)) timeout);
      try reflexivity; lia.
  - assert (0 <= (timeout + interval - 1) / interval) by (apply Z.div_pos; lia).
    rewrite Z2Nat.id by lia.
    destruct (Z.ltb_spec (interval * (N - 1)) timeout) as [Hlt|Hge].
    + apply Z.leb_le. apply Z.div_le_lower_bound; lia.
    + apply Z.leb_gt. apply Z.div_lt_upper_bound; lia.
Qed.

Lemma install_wait_first_hit (w : World) (image_name : string) (volume : option string)
      (timeout N : Z) :
  1 <= N ->
  (forall k, 1 <= k <= N ->
             exists d, appliance w (now w + 20 * k) = Some d /\
                       installed_on d image_name volume = (k =? N)) ->
  _wait_for_image_installed image_name volume timeout w =
  if 20 * (N - 1) <? timeout
  then (Ok true, set_now (now w + 20 * N) w)
  else (Ok false, set_now (now w + 20 * Z.of_nat (Z.to_nat (probes 20 timeout))) w).
Proof.
  intros HN Hobs. rewrite wait_for_image_installed_run.
  rewrite (poll_outcome_first_hit _ 20 (now w) N _ HN).
  - rewrite probes_reach by lia.
    destruct (20 * (N - 1) <? timeout); reflexivity.
  - intros k Hk. destruct (Hobs k Hk) as [d [Hd Hi]].
    unfold install_obs. now rewrite Hd, Hi.
Qed.

Lemma get_active_volume_ok w d :
  appliance w (now w) = Some d ->
  _get_active_volume w = (Ok (active_volume_of d), w).
Proof.
  intros Hd. unfold _get_active_volume, _get_volumes, active_volume_of.
  rewrite (bind_ok _ _ _ _ _ (remote_ok _ w d Hd)).
  destruct (find is_active (volumes d)); reflexivity.
Qed.

Lemma exec_cmd_ok c w d :
  appliance w (now w) = Some d -> exec_cmd c w = (Ok tt, add_issued c w).
Proof.
  intros Hd. unfold exec_cmd.
  now rewrite (bind_ok _ _ _ _ _ (remote_ok _ w d Hd)).
Qed.

Lemma image_install_ok image_name volume w d :
  appliance w (now w) = Some d ->
  _image_install image_name volume w =
  (Ok tt, add_issued (Install image_name volume
                              (if volume_exists d volume then []
                               else [("create-volume", true)])) w).
Proof.
  intros Hd. unfold _image_install, _volume_exists.
  rewrite (bind_ok _ _ _ _ _ (remote_ok _ w d Hd)).
  rewrite (exec_cmd_ok _ w d Hd).
  destruct (volume_exists d volume); reflexivity.
Qed.

(** Once the gate on the free space is passed, [set_boot_options] sends the
    install command and waits 900 seconds. *)
Lemma set_boot_options_after_gate image_name volume w d v :
  appliance w (now w) = Some d ->
  _check_free_space 6 w = (Ok v, w) ->
  truthy v = true ->
  set_boot_options image_name volume w =
  (installed <- _wait_for_image_installed image_name volume 900 ;;
   if negb installed
   then raise (RuntimeError ("Installation of " ++ py_str volume ++ " failed")%string)
   else ret tt)
    (add_issued (Install image_name volume
                         (if volume_exists d volume then []
                          else [("create-volume", true)])) w).
Proof.
  intros Hd Hgate Hv. unfold set_boot_options.
  rewrite (bind_ok _ _ _ _ _ Hgate). rewrite Hv. cbn [negb].
  now rewrite (bind_ok _ _ _ _ _ (image_install_ok image_name volume w d Hd)).
Qed.

(** C3, as the code has it: when the installation is first seen complete on
    the [N]-th probe, the wait returns [True] (at that probe, 20 N seconds
    after the call) if 20 (N - 1) is less than the timeout, and [False] if
    it is not; the deadline is tested before each sleep of 20 seconds, not
    after it.  [set_boot_options], past its gate, then returns or raises
    its installation error accordingly, with its timeout of 900 seconds. *)
Theorem install_wait_deadline (w : World) (image_name : string)
        (volume : option string) (timeout N : Z) :
  1 <= N ->
  (forall k, 1 <= k <= N ->
             exists d, appliance w (now w + 20 * k) = Some d /\
                       installed_on d image_name volume = (k =? N)) ->
  _wait_for_image_installed image_name volume timeout w =
  (Ok (20 * (N - 1) <? timeout),
   set_now (now w + 20 * (if 20 * (N - 1) <? timeout then N
                          else Z.of_nat (Z.to_nat (probes 20 timeout)))) w)
  /\
  (forall d v,
      appliance w (now w) = Some d ->
      _check_free_space 6 w = (Ok v, w) ->
      truthy v = true ->
      fst (set_boot_options image_name volume w) =
      if 20 * (N - 1) <? 900 then Ok tt
      else Raise (RuntimeError ("Installation of " ++ py_str volume ++ " failed")%string)).
Proof.
  intros HN Hobs. split.
  - rewrite (install_wait_first_hit w image_name volume timeout N HN Hobs).
    destruct (20 * (N - 1) <? timeout); reflexivity.
  - intros d v Hd Hgate Hv.
    rewrite (set_boot_options_after_gate image_name volume w d v Hd Hgate Hv).
    unfold bind.
    rewrite (install_wait_first_hit (add_issued _ w) image_name volume 900 N HN Hobs).
    destruct (20 * (N - 1) <? 900); reflexivity.
Qed.

Lemma install_wait_deadline_witness :
  _wait_for_image_installed iso (Some "HD1.2") 900 (installing "5.00" 100)
  = (Ok true, set_now 100 (installing "5.00" 100)).
Proof.
  refine (proj1 (install_wait_deadline (installing "5.00" 100) iso (Some "HD1.2")
                                       900 5 _ _)).
  - lia.
  - intros k Hk.
    assert (k = 1 \/ k = 2 \/ k = 3 \/ k = 4 \/ k = 5) as [-> | [-> | [-> | [-> | ->]]]] by lia;
      eexists; split; reflexivity.
Defined.

(** C3 as claimed fails when the first complete observation falls on the
    deadline: with a timeout of 900 seconds and an installation that
    completes at 900 seconds, probes 1 to 44 see it incomplete, probe 45 (at
    45 * 20 = 900 seconds) sees it complete, and the wait returns [True]. *)
Lemma install_wait_at_deadline :
  forallb (fun k => match install_obs (installing "5.00" 900) iso (Some "HD1.2")
                                      (20 * Z.of_nat k) with
                    | Ok false => true
                    | _ => false
                    end) (seq 1 44) = true
  /\ install_obs (installing "5.00" 900) iso (Some "HD1.2") (20 * 45) = Ok true
  /\ (900 <=? 45 * 20) = true
  /\ fst (_wait_for_image_installed iso (Some "HD1.2") 900 (installing "5.00" 900))
     = Ok true
  /\ fst (set_boot_options iso (Some "HD1.2") (installing "5.00" 900)) = Ok tt.
Proof. repeat split; vm_compute; reflexivity. Qed.

Example install_never_completes :
  fst (set_boot_options iso (Some "HD1.2") (installing "5.00" 100000))
  = Raise (RuntimeError "Installation of HD1.2 failed")
  /\ now (snd (set_boot_options iso (Some "HD1.2") (installing "5.00" 100000))) = 900
  /\ issued (snd (set_boot_options iso (Some "HD1.2") (installing "5.00" 100000)))
     = [Install iso (Some "HD1.2") []].
Proof. repeat split; vm_compute; reflexivity. Qed.

Example install_one_probe_later :
  fst (_wait_for_image_installed iso (Some "HD1.2") 900 (installing "5.00" 901))
  = Ok false.
Proof. vm_compute. reflexivity. Qed.

(** ** The reboot and its wait *)

Lemma wait_for_device_reboot_run volume_name timeout w :
  _wait_for_device_reboot volume_name timeout w =
  (fst (poll_outcome (reboot_obs w volume_name) 5 (now w)
                     (Z.to_nat (probes 5 timeout))),
   set_now (snd (poll_outcome (reboot_obs w volume_name) 5 (now w)
                              (Z.to_nat (probes 5 timeout)))) w).
Proof.
  unfold _wait_for_device_reboot, bind, time_time.
  rewrite reboot_poll_is_poll.
  apply (poll_run 5 (now w + timeout) _ (reboot_obs w volume_name) w).
  - lia.
  - intros w' Happ. rewrite reboot_probe_obs. unfold reboot_obs.
    now rewrite Happ.
  - reflexivity.
  - f_equal. f_equal. lia.
  - pose proof (probes_le_timeout 5 timeout). lia.
Qed.

Lemma reboot_to_volume_ok volume_name w d :
  appliance w (now w) = Some d ->
  _reboot_to_volume volume_name w = (Ok tt, add_issued (reboot_command volume_name) w).
Proof.
  intros Hd. unfold _reboot_to_volume, reboot_command.
  destruct volume_name as [v|]; [destruct (negb (v =? "")%string)|];
    apply (exec_cmd_ok _ w d Hd).
Qed.

(** [reboot] on an appliance that answers: one command, then the wait. *)
Lemma reboot_run timer confirm volume w d :
  appliance w (now w) = Some d ->
  reboot timer confirm volume w =
  (rebooted <- _wait_for_device_reboot volume 600 ;;
   if negb rebooted
   then raise (RuntimeError ("Reboot to volume " ++ py_str volume ++ " failed")%string)
   else ret tt)
    (add_issued
       (reboot_command (if opt_eqb (active_volume_of d) volume then None else volume))
       w).
Proof.
  intros Hd. unfold reboot.
  rewrite (bind_ok _ _ _ _ _ (get_active_volume_ok w d Hd)).
  now rewrite (bind_ok _ _ _ _ _ (reboot_to_volume_ok _ w d Hd)).
Qed.

(** The wait ends in a boolean whatever the probes raise. *)
Lemma reboot_wait_total volume_name timeout w :
  exists b,
    fst (_wait_for_device_reboot volume_name timeout w) = Ok b /\
    (b = true <->
     exists k, 1 <= k <= probes 5 timeout /\
               seen_active (appliance w (now w + 5 * k)) volume_name = true).
Proof.
  rewrite wait_for_device_reboot_run. cbn [fst].
  destruct (poll_outcome_total (reboot_obs w volume_name) 5
              (fun t => ex_intro _ _ eq_refl)
              (Z.to_nat (probes 5 timeout)) (now w)) as [b [Hres Hiff]].
  exists b. split; [exact Hres|]. rewrite Hiff.
  assert (0 <= probes 5 timeout) as Hp.
  { unfold probes. destruct (Z.leb_spec timeout 0); [lia|]. apply Z.div_pos; lia. }
  rewrite Z2Nat.id by exact Hp.
  unfold reboot_obs.
  split; intros [k [Hk Hobs]]; exists k; (split; [exact Hk|]); congruence.
Qed.

Lemma issued_set_now t w : issued (set_now t w) = issued w.
Proof. reflexivity. Qed.

(** C4: in the reboot wait (a probe every 5 seconds, a deadline of 600
    seconds) nothing the reconnect-and-load step raises comes out: the wait
    always ends in a boolean, which is [True] exactly when one of its 120
    probes has seen the target volume active; and [reboot], on an appliance
    that takes its command, returns when the wait says [True] and raises its
    error only when the wait has run to the deadline without such a probe. *)
Theorem reboot_wait_swallows_errors (w : World) (volume : option string) :
  exists b,
    fst (_wait_for_device_reboot volume 600 w) = Ok b /\
    (b = true <->
     exists k, 1 <= k <= 120 /\
               seen_active (appliance w (now w + 5 * k)) volume = true) /\
    (forall timer confirm,
        appliance w (now w) <> None ->
        fst (reboot timer confirm volume w) =
        if b then Ok tt
        else Raise (RuntimeError ("Reboot to volume " ++ py_str volume ++ " failed")%string)).
Proof.
  destruct (reboot_wait_total volume 600 w) as [b [Hres Hiff]].
  exists b. split; [exact Hres|]. split; [exact Hiff|].
  intros timer confirm Hup.
  destruct (appliance w (now w)) as [d|] eqn:Hd; [|congruence].
  rewrite (reboot_run timer confirm volume w d Hd).
  unfold bind.
  rewrite wait_for_device_reboot_run in Hres |- *.
  cbn [fst] in Hres. cbn [now add_issued].
  change (reboot_obs (add_issued _ w) volume) with (reboot_obs w volume).
  rewrite Hres. destruct b; reflexivity.
Qed.

(** The appliance is away for 60 seconds, so that the probes at 5 to 55
    seconds raise; the one at 60 seconds sees HD1.2 active. *)
Lemma reboot_wait_swallows_errors_witness :
  exists b,
    fst (_wait_for_device_reboot (Some "HD1.2") 600 (restarting 60)) = Ok b /\
    (b = true <->
     exists k, 1 <= k <= 120 /\
               seen_active (appliance (restarting 60) (now (restarting 60) + 5 * k))
                           (Some "HD1.2") = true) /\
    (forall timer confirm,
        appliance (restarting 60) (now (restarting 60)) <> None ->
        fst (reboot timer confirm (Some "HD1.2") (restarting 60)) =
        if b then Ok tt
        else Raise (RuntimeError ("Reboot to volume " ++ py_str (Some "HD1.2")
                                  ++ " failed")%string)).
Proof. exact (reboot_wait_swallows_errors (restarting 60) (Some "HD1.2")). Defined.

Example reboot_after_outage :
  reboot_obs (restarting 60) (Some "HD1.2") 55 = Ok false
  /\ appliance (restarting 60) 55 = None
  /\ fst (reboot 0 false (Some "HD1.2") (restarting 60)) = Ok tt
  /\ now (snd (reboot 0 false (Some "HD1.2") (restarting 60))) = 60.
Proof. repeat split; vm_compute; reflexivity. Qed.

Example reboot_never_back :
  fst (reboot 0 false (Some "HD1.2") (restarting 10000))
  = Raise (RuntimeError "Reboot to volume HD1.2 failed")
  /\ now (snd (reboot 0 false (Some "HD1.2") (restarting 10000))) = 600.
Proof. split; vm_compute; reflexivity. Qed.

(** C7, as the code has it: for a target volume whose name is not empty,
    [reboot] sends the plain reboot command when the name
    [_get_active_volume] returns is the target, and the reboot command that
    names the target when it is not; it sends nothing else. *)
Theorem reboot_command_selection (w : World) (d : Device) (timer : Z)
        (confirm : bool) (v : string) :
  appliance w (now w) = Some d ->
  v <> "" ->
  (active_volume_of d = Some v ->
   issued (snd (reboot timer confirm (Some v) w)) = issued w ++ [Reboot])
  /\
  (active_volume_of d <> Some v ->
   issued (snd (reboot timer confirm (Some v) w)) = issued w ++ [RebootVolume v]).
Proof.
  intros Hd Hv.
  assert (forall c,
             reboot_command (if opt_eqb (active_volume_of d) (Some v)
                             then None else Some v) = c ->
             issued (snd (reboot timer confirm (Some v) w)) = issued w ++ [c]) as Hrun.
  { intros c Hc. rewrite (reboot_run timer confirm (Some v) w d Hd). rewrite Hc.
    unfold bind. rewrite wait_for_device_reboot_run.
    destruct (fst (poll_outcome _ _ _ _)) as [[|]|e|]; reflexivity. }
  split; intros Hact; apply Hrun.
  - rewrite Hact. cbn [opt_eqb]. now rewrite String.eqb_refl.
  - destruct (active_volume_of d) as [a|]; cbn [opt_eqb reboot_command].
    + destruct (String.eqb_spec a v) as [->|_]; [congruence|].
      cbn [reboot_command]. destruct (String.eqb_spec v ""); [contradiction|reflexivity].
    + destruct (String.eqb_spec v ""); [contradiction|reflexivity].
Qed.

Lemma reboot_command_selection_witness :
  issued (snd (reboot 0 false (Some "HD1.1") (restarting 60))) = [Reboot]
  /\ issued (snd (reboot 0 false (Some "HD1.2") (restarting 60))) = [RebootVolume "HD1.2"].
Proof.
  split.
  - refine (proj1 (reboot_command_selection (restarting 60)
                     (lab_device None None [hd1_1 true; hd1_2 true false])
                     0 false "HD1.1" _ _) _); [reflexivity | discriminate | reflexivity].
  - refine (proj2 (reboot_command_selection (restarting 60)
                     (lab_device None None [hd1_1 true; hd1_2 true false])
                     0 false "HD1.2" _ _) _); [reflexivity | discriminate | discriminate].
Defined.

(** C7 as claimed fails for the empty name: it is not the active volume
    (HD1.1 is), and the plain command is sent, not one that names it. *)
Lemma reboot_empty_target :
  appliance (restarting 60) (now (restarting 60))
  = Some (lab_device None None [hd1_1 true; hd1_2 true false])
  /\ active_volume_of (lab_device None None [hd1_1 true; hd1_2 true false]) = Some "HD1.1"
  /\ issued (snd (reboot 0 false (Some "") (restarting 60))) = [Reboot].
Proof. repeat split; vm_compute; reflexivity. Qed.

(** With no target, or an empty name, the plain command is sent whatever
    volume is active. *)
Lemma reboot_without_target (w : World) (d : Device) (timer : Z) (confirm : bool)
      (volume : option string) :
  appliance w (now w) = Some d ->
  truthy_opt volume = false ->
  issued (snd (reboot timer confirm volume w)) = issued w ++ [Reboot].
Proof.
  intros Hd Hv. rewrite (reboot_run timer confirm volume w d Hd).
  assert (reboot_command (if opt_eqb (active_volume_of d) volume then None else volume)
          = Reboot) as ->.
  { destruct (opt_eqb (active_volume_of d) volume); [reflexivity|].
    destruct volume as [v|]; [|reflexivity]. cbn in Hv |- *.
    destruct (v =? "")%string; [reflexivity|discriminate]. }
  unfold bind. rewrite wait_for_device_reboot_run.
  destruct (fst (poll_outcome _ _ _ _)) as [[|]|e|]; reflexivity.
Qed.

(** ** The upload *)

Lemma posted_post_all reqs : forall w, posted (post_all reqs w) = posted w ++ reqs.
Proof.
  induction reqs as [|r reqs IH]; intros w.
  - cbn. now rewrite app_nil_r.
  - cbn [post_all fold_left]. fold (post_all reqs (add_posted r w)).
    rewrite IH. cbn [posted add_posted]. now rewrite <- app_assoc.
Qed.

Lemma ceil_div_zero c : 0 < c -> ceil_div 0 c = 0.
Proof. intros Hc. unfold ceil_div. apply Z.div_small. lia. Qed.

Lemma ceil_div_full c a : 0 < c -> c <= a -> ceil_div a c = 1 + ceil_div (a - c) c.
Proof.
  intros Hc Ha. unfold ceil_div.
  replace (a + c - 1) with (a - c + c - 1 + 1 * c) by lia.
  rewrite Z.div_add by lia. lia.
Qed.

Lemma ceil_div_short c a : 0 < a -> a < c -> ceil_div a c = 1.
Proof.
  intros Ha Hc. unfold ceil_div.
  replace (a + c - 1) with (a - 1 + 1 * c) by lia.
  rewrite Z.div_add by lia. rewrite Z.div_small; lia.
Qed.

Lemma ceil_div_covers c a : 0 < c -> 0 <= a -> a <= c * ceil_div a c < a + c.
Proof.
  intros Hc Ha. unfold ceil_div.
  pose proof (Z.div_mod (a + c - 1) c ltac:(lia)).
  pose proof (Z.mod_pos_bound (a + c - 1) c Hc). lia.
Qed.

(** The loop from a position that is a multiple of the chunk size (or the
    end of the file): the requests it posts, one per chunk. *)
Lemma upload_loop_posts (C : nat) (URI : string) (bs : list byte) :
  (0 < C)%nat ->
  forall (n p fuel : nat) (w : World),
    (List.length (skipn p bs) <= n)%nat ->
    (n < fuel)%nat ->
    (exists j, p = j * C)%nat \/ skipn p bs = [] ->
    exists reqs,
      upload_loop (Z.of_nat C) fuel URI (Z.of_nat (List.length bs))
                  {| content := bs; position := p |} (Z.of_nat p) w
      = (Ok tt, post_all reqs w)
      /\ List.concat (map data reqs) = skipn p bs
      /\ Z.of_nat (List.length reqs)
         = ceil_div (Z.of_nat (List.length (skipn p bs))) (Z.of_nat C)
      /\ forall i r,
          nth_error reqs i = Some r ->
          uri r = URI /\
          content_type r = "application/octet-stream" /\
          content_range r
          = (Z.of_nat (p + i * C),
             Z.min (Z.of_nat (p + (i + 1) * C)) (Z.of_nat (List.length bs)) - 1,
             Z.of_nat (List.length bs)) /\
          data r = firstn C (skipn (p + i * C) bs).
Proof.
  intros HC. induction n as [|n IH]; intros p fuel w Hn Hfuel Hinv.
  - destruct fuel as [|fuel]; [lia|].
    assert (skipn p bs = []) as Hrest by (apply length_zero_iff_nil; lia).
    exists []. cbn [upload_loop]. unfold read. cbn [position content].
    rewrite Hrest, firstn_nil.
    destruct (Z.of_nat C <? 0); cbn [List.length map List.concat nth_error];
      (split; [reflexivity|]); (split; [reflexivity|]);
      (split; [now rewrite ceil_div_zero by lia|]);
      intros i r Hi; now rewrite nth_error_nil in Hi.
  - destruct fuel as [|fuel]; [lia|].
    cbn [upload_loop]. unfold read. cbn [position content].
    rewrite (proj2 (Z.ltb_ge (Z.of_nat C) 0)) by lia.
    rewrite Nat2Z.id.
    pose proof (length_firstn C (skipn p bs)) as Hlen.
    pose proof (firstn_skipn C (skipn p bs)) as Hsplit.
    pose proof (length_skipn p bs) as Hrestlen.
    destruct (firstn C (skipn p bs)) as [|b got] eqn:Hgot.
    + assert (skipn p bs = []) as Hrest.
      { destruct (skipn p bs); [reflexivity|]. destruct C; [lia|discriminate Hgot]. }
      exists []. rewrite Hrest. cbn [List.length map List.concat nth_error].
      split; [reflexivity|]. split; [reflexivity|].
      split; [now rewrite ceil_div_zero by lia|].
      intros i r Hi. now rewrite nth_error_nil in Hi.
    + set (g := List.length (b :: got)) in *.
      assert (1 <= g)%nat as Hg1 by (subst g; cbn; lia).
      assert (skipn (p + g) bs = skipn C (skipn p bs)) as Hnext.
      { rewrite skipn_skipn.
        destruct (Nat.le_gt_cases C (List.length (skipn p bs))) as [Hfull|Hshort].
        - f_equal. lia.
        - rewrite !skipn_all2 by lia. reflexivity. }
      assert (p + g <= List.length bs)%nat as Hbound by lia.
      unfold bind, requests_post, tell. cbn [position].
      rewrite <- Nat2Z.inj_add.
      destruct (IH (p + g)%nat fuel
                   (add_posted
                      {| uri := URI; content_type := "application/octet-stream";
                         content_range :=
                           (Z.of_nat p,
                            (if Z.of_nat (p + g) <? Z.of_nat C
                             then Z.of_nat (List.length bs) else Z.of_nat (p + g)) - 1,
                            Z.of_nat (List.length bs));
                         data := b :: got |} w))
        as [reqs [Hrun [Hcat [Hcount Hnth]]]].
      * rewrite Hnext, length_skipn. lia.
      * lia.
      * destruct (Nat.le_gt_cases C (List.length (skipn p bs))) as [Hfull|Hshort].
        -- left. destruct Hinv as [[j Hj]|Hnil].
           ++ exists (S j). lia.
           ++ rewrite Hnil in Hgot. now rewrite firstn_nil in Hgot.
        -- right. rewrite Hnext. apply skipn_all2. lia.
      * exists ({| uri := URI; content_type := "application/octet-stream";
                  content_range :=
                    (Z.of_nat p,
                     (if Z.of_nat (p + g) <? Z.of_nat C
                      then Z.of_nat (List.length bs) else Z.of_nat (p + g)) - 1,
                     Z.of_nat (List.length bs));
                  data := b :: got |} :: reqs).
        split; [exact Hrun|].
        split.
        { cbn [map List.concat data]. rewrite Hcat, Hnext. exact Hsplit. }
        split.
        { cbn [List.length]. rewrite Nat2Z.inj_succ, Hcount, Hnext, length_skipn.
          destruct (Nat.le_gt_cases C (List.length (skipn p bs))) as [Hfull|Hshort].
          - rewrite (ceil_div_full (Z.of_nat C) (Z.of_nat (List.length (skipn p bs))))
              by lia.
            rewrite Nat2Z.inj_sub by lia. lia.
          - replace (List.length (skipn p bs) - C)%nat with 0%nat by lia.
            rewrite ceil_div_zero by lia.
            rewrite ceil_div_short by lia. lia. }
        intros i r Hi. destruct i as [|i].
        { cbn [nth_error] in Hi. injection Hi as <-. cbn [uri content_type content_range data].
          split; [reflexivity|]. split; [reflexivity|].
          rewrite Nat.mul_0_l, Nat.add_0_r.
          split; [|now rewrite Hgot].
          f_equal. f_equal.
          destruct (Z.ltb_spec (Z.of_nat (p + g)) (Z.of_nat C)) as [Hlt|Hge].
          - destruct Hinv as [[j Hj]|Hnil].
            + destruct j as [|j]; [|nia].
              assert (g = List.length (skipn p bs)) by lia. lia.
            + rewrite Hnil in Hgot. now rewrite firstn_nil in Hgot.
          - lia. }
        cbn [nth_error] in Hi.
        destruct (Nat.le_gt_cases C (List.length (skipn p bs))) as [Hfull|Hshort].
        { destruct (Hnth i r Hi) as [Hu [Ht [Hr Hd]]].
          assert (g = C) as HgC by lia.
          split; [exact Hu|]. split; [exact Ht|].
          replace (p + S i * C)%nat with (p + g + i * C)%nat by lia.
          replace (p + (S i + 1) * C)%nat with (p + g + (i + 1) * C)%nat by lia.
          split; assumption. }
        exfalso.
        assert (reqs = []) as ->.
        { apply length_zero_iff_nil.
          rewrite Hnext, length_skipn in Hcount.
          replace (List.length (skipn p bs) - C)%nat with 0%nat in Hcount by lia.
          rewrite ceil_div_zero in Hcount by lia. lia. }
        now rewrite nth_error_nil in Hi.
Qed.

Lemma upload_image_run (w : World) (path : string) (bs : list byte) :
  files w path = Some bs ->
  _upload_image path w =
  upload_loop chunk_size (S (List.length bs)) (upload_uri (hostname w) (basename path))
              (Z.of_nat (List.length bs)) {| content := bs; position := 0 |} 0 w.
Proof.
  intros Hf. unfold _upload_image, bind, get_hostname, os_path_getsize, open_file.
  rewrite Hf. cbv beta iota. rewrite Hf. reflexivity.
Qed.

(** C5: the upload of a file of [S] bytes posts ceil (S / C) requests, with
    C = 512 KiB, one after the other; every request but the last carries
    exactly C bytes; the range of the last request ends at S - 1; and the
    bodies, in order, make up the file. *)
Theorem upload_chunking (w : World) (path : string) (bs : list byte) :
  files w path = Some bs ->
  exists reqs,
    _upload_image path w = (Ok tt, post_all reqs w)
    /\ posted (post_all reqs w) = posted w ++ reqs
    /\ Z.of_nat (List.length reqs) = ceil_div (Z.of_nat (List.length bs)) chunk_size
    /\ (forall i r,
           nth_error reqs i = Some r -> (i + 1 < List.length reqs)%nat ->
           Z.of_nat (List.length (data r)) = chunk_size)
    /\ (forall r,
           nth_error reqs (List.length reqs - 1) = Some r ->
           content_range r
           = (chunk_size * (Z.of_nat (List.length reqs) - 1),
              Z.of_nat (List.length bs) - 1,
              Z.of_nat (List.length bs)))
    /\ List.concat (map data reqs) = bs.
Proof.
  intros Hf. rewrite (upload_image_run w path bs Hf).
  remember (Z.to_nat chunk_size) as C eqn:HC.
  assert (Z.of_nat C = chunk_size) as HCz by (subst C; unfold chunk_size; lia).
  assert (0 < C)%nat as HCpos by (unfold chunk_size in HCz; lia).
  destruct (upload_loop_posts C (upload_uri (hostname w) (basename path)) bs HCpos
              (List.length bs) 0%nat (S (List.length bs)) w)
    as [reqs [Hrun [Hcat [Hcount Hnth]]]].
  - cbn [skipn]. lia.
  - lia.
  - left. exists 0%nat. reflexivity.
  - cbn [skipn] in Hcat, Hcount. rewrite HCz in Hrun, Hcount.
    change (Z.of_nat 0) with 0 in Hrun.
    pose proof (ceil_div_covers chunk_size (Z.of_nat (List.length bs))) as Hcov.
    rewrite <- Hcount in Hcov.
    exists reqs. split; [exact Hrun|]. split; [apply posted_post_all|].
    split; [exact Hcount|].
    split; [|split; [|exact Hcat]].
    + intros i r Hi Hnotlast.
      destruct (Hnth i r Hi) as [_ [_ [_ Hd]]].
      rewrite Hd, length_firstn, length_skipn, <- HCz.
      assert (Z.of_nat C * (Z.of_nat i + 2) <= Z.of_nat C * Z.of_nat (List.length reqs))
        by (apply Z.mul_le_mono_nonneg_l; lia).
      lia.
    + intros r Hr.
      destruct (List.length reqs) as [|k] eqn:Hk.
      { rewrite (proj1 (length_zero_iff_nil reqs) Hk) in Hr.
        now rewrite nth_error_nil in Hr. }
      replace (S k - 1)%nat with k in Hr by lia.
      destruct (Hnth _ r Hr) as [_ [_ [Hrange _]]].
      rewrite Hrange. rewrite <- HCz in *.
      f_equal. f_equal; lia.
Qed.

Lemma upload_chunking_witness :
  exists reqs,
    _upload_image ("/tmp/" ++ iso)%string (steady Py3 "7.10")
    = (Ok tt, post_all reqs (steady Py3 "7.10"))
    /\ posted (post_all reqs (steady Py3 "7.10")) = posted (steady Py3 "7.10") ++ reqs
    /\ Z.of_nat (List.length reqs) = ceil_div 5 chunk_size
    /\ (forall i r,
           nth_error reqs i = Some r -> (i + 1 < List.length reqs)%nat ->
           Z.of_nat (List.length (data r)) = chunk_size)
    /\ (forall r,
           nth_error reqs (List.length reqs - 1) = Some r ->
           content_range r = (chunk_size * (Z.of_nat (List.length reqs) - 1), 5 - 1, 5))
    /\ List.concat (map data reqs) = [x42; x49; x47; x49; x50]%byte.
Proof.
  exact (upload_chunking (steady Py3 "7.10") ("/tmp/" ++ iso)%string
                         [x42; x49; x47; x49; x50]%byte eq_refl).
Defined.

Example upload_small_file :
  posted (snd (_upload_image ("/tmp/" ++ iso)%string (steady Py3 "7.10")))
  = [ {| uri := ("https://f5.example.net/mgmt/cm/autodeploy/software-image-uploads/"
                 ++ iso)%string;
         content_type := "application/octet-stream";
         content_range := (0, 4, 5);
         data := [x42; x49; x47; x49; x50]%byte |} ].
Proof. vm_compute. reflexivity. Qed.

Example upload_missing_file :
  fst (_upload_image "/tmp/none.iso" (steady Py3 "7.10")) = Raise OSError.
Proof. reflexivity. Qed.

(** ** The installed check *)

Lemma select_image_snoc image_name l x :
  select_image image_name (l ++ [x]) =
  if (Image.fullPath x =? image_name)%string then Some x else select_image image_name l.
Proof. unfold select_image. now rewrite fold_left_app. Qed.

Lemma select_image_some image_name l im :
  select_image image_name l = Some im -> In im l /\ Image.fullPath im = image_name.
Proof.
  induction l as [|x l IH] using rev_ind; [discriminate|].
  rewrite select_image_snoc.
  destruct (String.eqb_spec (Image.fullPath x) image_name) as [E|_].
  - intros [= <-]. split; [apply in_or_app; right; now left|exact E].
  - intros H. destruct (IH H) as [Hin Hp]. split; [apply in_or_app; now left|exact Hp].
Qed.

Lemma select_image_none image_name l :
  select_image image_name l = None <->
  forall x, In x l -> Image.fullPath x <> image_name.
Proof.
  induction l as [|x l IH] using rev_ind.
  - split; [intros _ x []|reflexivity].
  - rewrite select_image_snoc.
    destruct (String.eqb_spec (Image.fullPath x) image_name) as [E|NE].
    + split; [discriminate|]. intros H. exfalso.
      apply (H x); [apply in_or_app; right; now left|exact E].
    + rewrite IH. split.
      * intros H y Hy. apply in_app_or in Hy. destruct Hy as [Hy|[<-|[]]]; auto.
      * intros H y Hy. apply H. apply in_or_app. now left.
Qed.

(** The image that is kept is the last of the given name. *)
Lemma select_image_last image_name l1 im l2 :
  Image.fullPath im = image_name ->
  (forall x, In x l2 -> Image.fullPath x <> image_name) ->
  select_image image_name (l1 ++ im :: l2) = Some im.
Proof.
  intros Him. induction l2 as [|x l2 IH] using rev_ind; intros Hl2.
  - rewrite select_image_snoc. now rewrite (proj2 (String.eqb_eq _ _) Him).
  - change (l1 ++ im :: l2 ++ [x]) with (l1 ++ (im :: l2) ++ [x]).
    rewrite app_assoc, select_image_snoc.
    destruct (String.eqb_spec (Image.fullPath x) image_name) as [E|_].
    + exfalso. apply (Hl2 x); [apply in_or_app; right; now left|exact E].
    + apply IH. intros y Hy. apply Hl2. apply in_or_app. now left.
Qed.

(** When the full paths are distinct, it is the image of that name. *)
Lemma select_image_unique image_name l im :
  NoDup (map Image.fullPath l) ->
  In im l -> Image.fullPath im = image_name ->
  select_image image_name l = Some im.
Proof.
  induction l as [|x l IH] using rev_ind; intros Hnd Hin Hp; [destruct Hin|].
  rewrite select_image_snoc.
  rewrite map_app in Hnd. cbn [map] in Hnd.
  pose proof (NoDup_remove_2 _ _ _ Hnd) as Hfresh. rewrite app_nil_r in Hfresh.
  pose proof (NoDup_remove_1 _ _ _ Hnd) as Hnd'. rewrite app_nil_r in Hnd'.
  apply in_app_or in Hin.
  destruct (String.eqb_spec (Image.fullPath x) image_name) as [E|NE].
  - destruct Hin as [Hin|[->|[]]]; [|reflexivity].
    exfalso. apply Hfresh. rewrite E, <- Hp. now apply in_map.
  - destruct Hin as [Hin|[->|[]]]; [now apply IH|contradiction].
Qed.

Lemma holds_image_iff image vol v :
  holds_image image (Some vol) v = true <->
  Volume.name v = vol /\ Volume.version v = Image.version image /\
  Volume.basebuild v = Image.build image /\ Volume.status v = "complete".
Proof.
  unfold holds_image. cbn [opt_eqb].
  rewrite !andb_true_iff, !String.eqb_eq. tauto.
Qed.

Lemma installed_on_last d image_name vol :
  installed_on d image_name (Some vol) = true <->
  exists im, select_image image_name (images d) = Some im /\
             exists v, In v (volumes d) /\ Volume.name v = vol /\
                       Volume.version v = Image.version im /\
                       Volume.basebuild v = Image.build im /\
                       Volume.status v = "complete".
Proof.
  unfold installed_on. destruct (select_image image_name (images d)) as [im|].
  - rewrite existsb_exists. split.
    + intros [v [Hin Hv]]. exists im. split; [reflexivity|].
      exists v. split; [exact Hin|]. now apply holds_image_iff.
    + intros [im' [[= <-] [v [Hin Hv]]]]. exists v. split; [exact Hin|].
      now apply holds_image_iff.
  - split; [discriminate|]. intros [im [H _]]. discriminate H.
Qed.

Lemma image_installed_ok image_name volume w d :
  appliance w (now w) = Some d ->
  _image_installed image_name volume w = (Ok (installed_on d image_name volume), w).
Proof.
  intros Hd. rewrite image_installed_obs. unfold install_obs. now rewrite Hd.
Qed.

(** C6: on an appliance whose images have distinct full paths, the check
    returns true exactly when an image of the given full path is in the
    image list and some volume has the given name, that image's version as
    its version, that image's build as its basebuild, and the status
    "complete"; so it returns false as soon as every volume differs from the
    image in one of these fields. *)
Theorem image_installed_iff (w : World) (d : Device) (img vol : string) :
  appliance w (now w) = Some d ->
  NoDup (map Image.fullPath (images d)) ->
  exists b,
    _image_installed img (Some vol) w = (Ok b, w) /\
    (b = true <->
     exists im, In im (images d) /\ Image.fullPath im = img /\
                exists v, In v (volumes d) /\ Volume.name v = vol /\
                          Volume.version v = Image.version im /\
                          Volume.basebuild v = Image.build im /\
                          Volume.status v = "complete") /\
    (forall im, In im (images d) -> Image.fullPath im = img ->
                (forall v, In v (volumes d) ->
                           Volume.name v <> vol \/
                           Volume.version v <> Image.version im \/
                           Volume.basebuild v <> Image.build im \/
                           Volume.status v <> "complete") ->
                b = false).
Proof.
  intros Hd Hnd. exists (installed_on d img (Some vol)).
  split; [exact (image_installed_ok img (Some vol) w d Hd)|].
  assert (installed_on d img (Some vol) = true <->
          exists im, In im (images d) /\ Image.fullPath im = img /\
                     exists v, In v (volumes d) /\ Volume.name v = vol /\
                               Volume.version v = Image.version im /\
                               Volume.basebuild v = Image.build im /\
                               Volume.status v = "complete") as Hiff.
  { rewrite installed_on_last. split.
    - intros [im [Hsel Hv]]. destruct (select_image_some _ _ _ Hsel) as [Hin Hp].
      exists im. auto.
    - intros [im [Hin [Hp Hv]]]. exists im. split; [|exact Hv].
      now apply select_image_unique. }
  split; [exact Hiff|].
  intros im Hin Hp Hmiss.
  destruct (installed_on d img (Some vol)) eqn:Hb; [|reflexivity].
  exfalso. destruct (proj1 Hiff eq_refl) as [im' [Hin' [Hp' [v [Hv [H1 [H2 [H3 H4]]]]]]]].
  assert (im' = im) as ->.
  { pose proof (select_image_unique img (images d) im Hnd Hin Hp) as S1.
    pose proof (select_image_unique img (images d) im' Hnd Hin' Hp') as S2.
    congruence. }
  destruct (Hmiss v Hv) as [N|[N|[N|N]]]; contradiction.
Qed.

Lemma image_installed_iff_witness :
  exists b,
    _image_installed iso (Some "HD1.2") (installing "5.00" 0) = (Ok b, installing "5.00" 0) /\
    (b = true <->
     exists im, In im [iso_image] /\ Image.fullPath im = iso /\
                exists v, In v [hd1_1 true; hd1_2 true false] /\ Volume.name v = "HD1.2" /\
                          Volume.version v = Image.version im /\
                          Volume.basebuild v = Image.build im /\
                          Volume.status v = "complete") /\
    (forall im, In im [iso_image] -> Image.fullPath im = iso ->
                (forall v, In v [hd1_1 true; hd1_2 true false] ->
                           Volume.name v <> "HD1.2" \/
                           Volume.version v <> Image.version im \/
                           Volume.basebuild v <> Image.build im \/
                           Volume.status v <> "complete") ->
                b = false).
Proof.
  refine (image_installed_iff (installing "5.00" 0)
            (lab_device (Some (vg_report "5.00")) (Some iso)
                        [hd1_1 true; hd1_2 true false])
            iso "HD1.2" eq_refl _).
  repeat constructor. intros [].
Defined.

Example image_installed_complete :
  fst (_image_installed iso (Some "HD1.2") (installing "5.00" 0)) = Ok true.
Proof. reflexivity. Qed.

Example image_installed_incomplete :
  fst (_image_installed iso (Some "HD1.2") (installing "5.00" 100)) = Ok false.
Proof. reflexivity. Qed.

Example image_installed_other_volume :
  fst (_image_installed iso (Some "HD1.1") (installing "5.00" 0)) = Ok false.
Proof. reflexivity. Qed.

Example image_installed_unknown_image :
  fst (_image_installed "BIGIP-12.0.0.iso" (Some "HD1.2") (installing "5.00" 0)) = Ok false.
Proof. reflexivity. Qed.

(** ** The local checksum *)

(** Reading block by block feeds the digest every byte of the file, in
    order, whatever the block size. *)
Lemma md5_read_loop_all (blocksize : Z) (bs : list byte) :
  0 < blocksize ->
  forall (fuel : nat) (m buf : list byte) (p : nat),
    (buf = [] -> skipn p bs = []) ->
    (buf = [] \/ (List.length (skipn p bs) < fuel)%nat) ->
    md5_read_loop fuel blocksize m {| content := bs; position := p |} buf
    = Some (m ++ buf ++ skipn p bs).
Proof.
  intros Hb. induction fuel as [|fuel IH]; intros m buf p Hend Hfuel.
  - destruct Hfuel as [->|Hlt]; [|lia].
    cbn [md5_read_loop]. rewrite (Hend eq_refl). now rewrite !app_nil_r.
  - destruct buf as [|b buf].
    { cbn [md5_read_loop]. rewrite (Hend eq_refl). now rewrite !app_nil_r. }
    cbn [md5_read_loop]. unfold read. cbn [position content].
    rewrite (proj2 (Z.ltb_ge blocksize 0)) by lia.
    set (got := firstn (Z.to_nat blocksize) (skipn p bs)).
    assert (skipn (p + List.length got) bs = skipn (Z.to_nat blocksize) (skipn p bs))
      as Hnext.
    { rewrite skipn_skipn. subst got. rewrite length_firstn.
      destruct (Nat.le_gt_cases (Z.to_nat blocksize) (List.length (skipn p bs))).
      - f_equal. lia.
      - rewrite !skipn_all2; [reflexivity| |]; rewrite ?length_skipn in *; lia. }
    assert (got = [] -> skipn p bs = []) as Hgot.
    { subst got. destruct (skipn p bs); [reflexivity|].
      destruct (Z.to_nat blocksize) eqn:E; [lia|discriminate]. }
    rewrite IH.
    + rewrite Hnext. subst got. rewrite <- app_assoc.
      now rewrite (firstn_skipn (Z.to_nat blocksize) (skipn p bs)).
    + intros Hnil. rewrite Hnext, (Hgot Hnil). apply skipn_nil.
    + destruct got as [|g got'] eqn:Eg; [now left|right].
      destruct Hfuel as [Hnil|Hlt]; [discriminate Hnil|].
      rewrite Hnext, length_skipn.
      assert (1 <= List.length (skipn p bs))%nat.
      { destruct (skipn p bs); [subst got; now rewrite firstn_nil in Eg|cbn; lia]. }
      lia.
Qed.

Lemma local_md5_present (w : World) (path : string) (bs : list byte) (blocksize : Z) :
  0 < blocksize ->
  files w path = Some bs ->
  _file_copy_local_md5 path blocksize w = (Ok (PyStr (MD5.hexdigest bs)), w).
Proof.
  intros Hb Hf.
  unfold _file_copy_local_md5, _file_copy_local_file_exists, os_path_isfile, open_file, bind.
  rewrite Hf. cbv beta iota. rewrite Hf. cbv beta iota.
  unfold read, open_rb. cbn [position content skipn].
  rewrite (proj2 (Z.ltb_ge blocksize 0)) by lia.
  rewrite Nat.add_0_l.
  rewrite (md5_read_loop_all blocksize bs Hb).
  - rewrite length_firstn.
    destruct (Nat.le_gt_cases (Z.to_nat blocksize) (List.length bs)).
    + rewrite Nat.min_l by lia. cbn [app]. now rewrite firstn_skipn.
    + rewrite Nat.min_r by lia. rewrite skipn_all, firstn_all2 by lia.
      cbn [app]. now rewrite app_nil_r.
  - intros Hnil. rewrite Hnil. cbn [List.length skipn].
    destruct bs; [reflexivity|]. destruct (Z.to_nat blocksize) eqn:E; [lia|discriminate].
  - destruct bs as [|b bs]; [left; apply firstn_nil|right].
    rewrite length_skipn, length_firstn. cbn [List.length]. lia.
Qed.

Lemma local_md5_absent (w : World) (path : string) (blocksize : Z) :
  files w path = None ->
  _file_copy_local_md5 path blocksize w = (Ok PyNone, w).
Proof.
  intros Hf.
  unfold _file_copy_local_md5, _file_copy_local_file_exists, os_path_isfile, bind.
  now rewrite Hf.
Qed.

Lemma local_md5_total (w : World) (path : string) :
  _file_copy_local_md5 path default_blocksize w =
  (Ok match files w path with
      | Some bs => PyStr (MD5.hexdigest bs)
      | None => PyNone
      end, w).
Proof.
  destruct (files w path) as [bs|] eqn:Hf.
  - apply local_md5_present; [reflexivity|exact Hf].
  - now apply local_md5_absent.
Qed.

(** C8, as the code has it: for a path that names no regular file the local
    checksum returns [None] and raises nothing; for a file it returns the
    MD5 digest, in hexadecimal, of the bytes of the file, which it reads in
    blocks of 1 MiB. *)
Theorem local_md5_none_or_digest (w : World) (path : string) :
  _file_copy_local_md5 path default_blocksize w =
  (Ok match files w path with
      | Some bs => PyStr (MD5.hexdigest bs)
      | None => PyNone
      end, w).
Proof.
  destruct (files w path) as [bs|] eqn:Hf.
  - apply local_md5_present; [reflexivity|exact Hf].
  - now apply local_md5_absent.
Qed.

(** C8 as claimed fails on a missing file: no error is raised. *)
Lemma local_md5_of_missing_file :
  files (steady Py3 "7.10") "/tmp/none.iso" = None
  /\ fst (_file_copy_local_md5 "/tmp/none.iso" default_blocksize (steady Py3 "7.10"))
     = Ok PyNone.
Proof. split; reflexivity. Qed.

Example local_md5_small_blocks :
  fst (_file_copy_local_md5 ("/tmp/" ++ iso)%string 2 (steady Py3 "7.10"))
  = Ok (PyStr "cc9a88266f41ac0e2375972a36975a0c")
  /\ fst (_file_copy_local_md5 ("/tmp/" ++ iso)%string 1024 (steady Py3 "7.10"))
     = Ok (PyStr "cc9a88266f41ac0e2375972a36975a0c").
Proof. split; vm_compute; reflexivity. Qed.

(** ** The image store and the remote match *)

Lemma image_exists_ok image_name w d :
  appliance w (now w) = Some d ->
  _image_exists image_name w =
  (Ok match unix_ls d "/shared/images" with
      | Some commandResult =>
          PyBool (existsb (String.eqb image_name) (splitlines commandResult))
      | None => PyNone
      end, w).
Proof.
  intros Hd. unfold _image_exists.
  rewrite (bind_ok _ _ _ _ _ (remote_ok _ w d Hd)).
  destruct (unix_ls d "/shared/images") as [r|]; [|reflexivity].
  destruct (existsb (String.eqb image_name) (splitlines r)); reflexivity.
Qed.

Lemma existsb_eqb_in (x : string) (l : list string) :
  existsb (String.eqb x) l = true <-> In x l.
Proof.
  rewrite existsb_exists. split.
  - intros [y [Hin Hy]]. apply String.eqb_eq in Hy. now subst.
  - intros Hin. exists x. split; [exact Hin|apply String.eqb_refl].
Qed.

(** When the image is not found in the store, the checksums are not
    compared. *)
Lemma image_match_not_found image_name checksum w v :
  _image_exists image_name w = (Ok v, w) ->
  truthy v = false ->
  _image_match image_name checksum w = (Ok false, w).
Proof.
  intros Hex Hv. unfold _image_match.
  rewrite (bind_ok _ _ _ _ _ Hex). now rewrite Hv.
Qed.

(** C10: when the listing of the image store has no result the existence
    check returns [None]; it returns [True] or [False] (whether the name is
    a line of the listing) only when there is a result; and
    [file_copy_remote_exists], which tests the truth of what the check
    returns, answers [False] for an empty listing as it does for a
    listing without the image, and raises nothing. *)
Theorem image_exists_none_without_listing (w : World) (d : Device) (src : string)
        (dest : option string) :
  appliance w (now w) = Some d ->
  truthy_opt dest = false ->
  match unix_ls d "/shared/images" with
  | None =>
      _image_exists (basename src) w = (Ok PyNone, w) /\
      file_copy_remote_exists src dest w = (Ok false, w)
  | Some listing =>
      exists b,
        _image_exists (basename src) w = (Ok (PyBool b), w) /\
        (b = true <-> In (basename src) (splitlines listing)) /\
        (b = false -> file_copy_remote_exists src dest w = (Ok false, w))
  end.
Proof.
  intros Hd Hdest.
  pose proof (image_exists_ok (basename src) w d Hd) as Hex.
  assert (forall v, _image_exists (basename src) w = (Ok v, w) -> truthy v = false ->
                    file_copy_remote_exists src dest w = (Ok false, w)) as Hfalse.
  { intros v Hv Hfalsy. unfold file_copy_remote_exists. rewrite Hdest.
    rewrite (bind_ok _ _ _ _ _ (local_md5_total w src)).
    rewrite (bind_ok _ _ _ _ _ (image_match_not_found _ _ w v Hv Hfalsy)).
    reflexivity. }
  destruct (unix_ls d "/shared/images") as [listing|].
  - exists (existsb (String.eqb (basename src)) (splitlines listing)).
    split; [exact Hex|]. split; [apply existsb_eqb_in|].
    intros Hb. apply (Hfalse _ Hex). cbn [truthy]. exact Hb.
  - split; [exact Hex|]. now apply (Hfalse _ Hex).
Qed.

Lemma image_exists_none_without_listing_witness :
  _image_exists (basename ("/tmp/" ++ iso)%string) (restarting 60)
  = (Ok PyNone, restarting 60)
  /\ file_copy_remote_exists ("/tmp/" ++ iso)%string None (restarting 60)
     = (Ok false, restarting 60).
Proof.
  exact (image_exists_none_without_listing (restarting 60)
           (lab_device None None [hd1_1 true; hd1_2 true false])
           ("/tmp/" ++ iso)%string None eq_refl eq_refl).
Defined.

Example remote_exists_when_digests_agree :
  fst (file_copy_remote_exists ("/tmp/" ++ iso)%string None (steady Py3 "7.10")) = Ok true.
Proof. vm_compute. reflexivity. Qed.

Example remote_exists_other_file :
  fst (file_copy_remote_exists "/tmp/none.iso" None (steady Py3 "7.10")) = Ok false.
Proof. vm_compute. reflexivity. Qed.

Example remote_exists_with_destination :
  fst (file_copy_remote_exists ("/tmp/" ++ iso)%string (Some "/var/tmp") (steady Py3 "7.10"))
  = Raise (NotImplementedError images_only).
Proof. reflexivity. Qed.

(** ** The gate of [set_boot_options] *)

(** With more than the 6 GB asked for, [_check_free_space] returns [False]
    and [set_boot_options] raises its error without sending anything. *)
Lemma set_boot_options_refuses_free_space (w w' : World) (q : Q)
      (image_name : string) (volume : option string) :
  _get_free_space w = (Ok (PyFloat (Finite q)), w') ->
  (inject_Z 6 < q)%Q ->
  set_boot_options image_name volume w
  = (Raise (RuntimeError "Not enough free space to install OS"), w').
Proof.
  intros Hget Hlt. unfold set_boot_options.
  assert (~ (q == 0)%Q) as Hnz.
  { intros Hz. rewrite Hz in Hlt. discriminate Hlt. }
  rewrite (bind_ok _ _ _ _ _ (check_free_space_finite w w' q 6 Hget Hnz)).
  destruct (Qle_bool q (inject_Z 6)) eqn:E; [|reflexivity].
  apply Qle_bool_iff in E. exfalso. exact (Qlt_not_le _ _ Hlt E).
Qed.

(** With 6 GB or less (and not zero) it sends the install command. *)
Lemma set_boot_options_installs_when_short (w : World) (d : Device) (q : Q)
      (image_name : string) (volume : option string) :
  appliance w (now w) = Some d ->
  _get_free_space w = (Ok (PyFloat (Finite q)), w) ->
  ~ (q == 0)%Q ->
  (q <= inject_Z 6)%Q ->
  exists options,
    issued (snd (set_boot_options image_name volume w))
    = issued w ++ [Install image_name volume options].
Proof.
  intros Hd Hget Hnz Hle.
  pose proof (check_free_space_finite w w q 6 Hget Hnz) as Hgate.
  rewrite (proj2 (Qle_bool_iff _ _) Hle) in Hgate.
  rewrite (set_boot_options_after_gate image_name volume w d _ Hd Hgate eq_refl).
  eexists. unfold bind. rewrite wait_for_image_installed_run.
  destruct (fst (poll_outcome _ _ _ _)) as [[|]|e|]; reflexivity.
Qed.

(** C1, on the code: with the 7.10 GB of the docstring free, more than the
    6 GB asked for, [set_boot_options] raises "Not enough free space" and
    sends no command; with 5.00 GB free it sends the install command (and
    here returns, the installation completing after 100 seconds). *)
Theorem set_boot_options_gate_inverted :
  set_boot_options iso (Some "HD1.2") (steady Py3 "7.10")
  = (Raise (RuntimeError "Not enough free space to install OS"), steady Py3 "7.10")
  /\ fst (set_boot_options iso (Some "HD1.2") (installing "5.00" 100)) = Ok tt
  /\ issued (snd (set_boot_options iso (Some "HD1.2") (installing "5.00" 100)))
     = [Install iso (Some "HD1.2") []].
Proof. repeat split; vm_compute; reflexivity. Qed.

(* ================================================================== *)
(** * Further properties of the driver                                 *)
(* ================================================================== *)

(** ** Runs of probes *)



(** ** The active volume *)

Lemma find_first_split {A} (p : A -> bool) (l : list A) (v : A) :
  find p l = Some v <->
  exists l1 l2, l = l1 ++ v :: l2 /\ p v = true /\ forall x, In x l1 -> p x = false.
Proof.
  induction l as [|a l IH].
  - split; [discriminate|]. intros [l1 [l2 [H _]]]. destruct l1; discriminate H.
  - cbn [find]. destruct (p a) eqn:Ha.
    + split.
      * intros [= <-]. exists [], l. split; [reflexivity|]. split; [exact Ha|intros x []].
      * intros [l1 [l2 [Hl [Hv Hl1]]]]. destruct l1 as [|b l1].
        -- cbn in Hl. congruence.
        -- cbn in Hl. injection Hl as <- _. rewrite (Hl1 a (or_introl eq_refl)) in Ha.
           discriminate Ha.
    + rewrite IH. split.
      * intros [l1 [l2 [Hl [Hv Hl1]]]]. exists (a :: l1), l2.
        split; [cbn; now rewrite Hl|]. split; [exact Hv|].
        intros x [<-|Hx]; [exact Ha|now apply Hl1].
      * intros [l1 [l2 [Hl [Hv Hl1]]]]. destruct l1 as [|b l1].
        -- cbn in Hl. injection Hl as -> _. congruence.
        -- cbn in Hl. injection Hl as _ Hl. exists l1, l2. split; [exact Hl|].
           split; [exact Hv|]. intros x Hx. apply Hl1. now right.
Qed.

Lemma is_active_iff (v : Volume.t) : is_active v = true <-> Volume.active v = Some true.
Proof.
  unfold is_active. destruct (Volume.active v) as [[|]|]; split; congruence.
Qed.

(** X1: [_get_active_volume] returns the name of the first volume of the
    collection whose [active] attribute is [True], and [None] exactly when
    no volume has it; the world is left as it was. *)
Theorem active_volume_is_first_active (w : World) (d : Device) :
  appliance w (now w) = Some d ->
  exists r,
    _get_active_volume w = (Ok r, w) /\
    (r = None <-> forall v, In v (volumes d) -> Volume.active v <> Some true) /\
    (forall n,
        r = Some n <->
        exists l1 v l2,
          volumes d = l1 ++ v :: l2 /\ Volume.active v = Some true /\
          Volume.name v = n /\
          forall x, In x l1 -> Volume.active x <> Some true).
Proof.
  intros Hd. exists (active_volume_of d).
  split; [exact (get_active_volume_ok w d Hd)|].
  unfold active_volume_of. split.
  - destruct (find is_active (volumes d)) as [v|] eqn:Hf; cbn [option_map].
    + split; [discriminate|]. intros Hnone. exfalso.
      destruct (find_some _ _ Hf) as [Hin Hact].
      apply (Hnone v Hin). now apply is_active_iff.
    + split; [|reflexivity]. intros _ v Hin Hact.
      pose proof (find_none _ _ Hf v Hin) as Hno.
      apply is_active_iff in Hact. congruence.
  - intros n. split.
    + destruct (find is_active (volumes d)) as [v|] eqn:Hf; [|discriminate].
      cbn [option_map]. intros [= <-].
      apply find_first_split in Hf. destruct Hf as [l1 [l2 [Hl [Hv Hl1]]]].
      exists l1, v, l2. split; [exact Hl|]. split; [now apply is_active_iff|].
      split; [reflexivity|]. intros x Hx Hact.
      apply is_active_iff in Hact. rewrite (Hl1 x Hx) in Hact. discriminate Hact.
    + intros [l1 [v [l2 [Hl [Hv [Hn Hl1]]]]]].
      assert (find is_active (volumes d) = Some v) as ->.
      { apply find_first_split. exists l1, l2. split; [exact Hl|].
        split; [now apply is_active_iff|]. intros x Hx.
        destruct (is_active x) eqn:E; [|reflexivity].
        exfalso. apply (Hl1 x Hx). now apply is_active_iff. }
      cbn [option_map]. now rewrite Hn.
Qed.

Lemma active_volume_is_first_active_witness :
  exists r,
    _get_active_volume (restarting 60) = (Ok r, restarting 60) /\
    (r = None <->
     forall v, In v [hd1_1 true; hd1_2 true false] -> Volume.active v <> Some true) /\
    (forall n,
        r = Some n <->
        exists l1 v l2,
          [hd1_1 true; hd1_2 true false] = l1 ++ v :: l2 /\
          Volume.active v = Some true /\ Volume.name v = n /\
          forall x, In x l1 -> Volume.active x <> Some true).
Proof.
  exact (active_volume_is_first_active (restarting 60)
           (lab_device None None [hd1_1 true; hd1_2 true false]) eq_refl).
Defined.

(** ** What a successful reboot leaves behind *)


Lemma get_active_volume_down w :
  appliance w (now w) = None -> _get_active_volume w = (Raise DeviceError, w).
Proof.
  intros Hd. unfold _get_active_volume, _get_volumes.
  now rewrite (bind_raise _ _ _ _ _ (remote_down _ w Hd)).
Qed.




(** ** Errors during the install wait *)

(** X4: the install wait has no handler: when the appliance stops answering
    before the installation is seen complete, the error of the first probe
    that fails comes out of the wait, at the instant of that probe. *)
Theorem install_wait_propagates_outage (w : World) (image_name : string)
        (volume : option string) (timeout K : Z) :
  1 <= K ->
  20 * (K - 1) < timeout ->
  (forall j, 1 <= j < K ->
             exists d, appliance w (now w + 20 * j) = Some d /\
                       installed_on d image_name volume = false) ->
  appliance w (now w + 20 * K) = None ->
  _wait_for_image_installed image_name volume timeout w
  = (Raise DeviceError, set_now (now w + 20 * K) w).
Proof.
  intros HK Hin Hmiss Hdown. rewrite wait_for_image_installed_run.
  pose proof (probes_reach 20 timeout K ltac:(lia) HK) as Hreach.
  rewrite (proj2 (Z.ltb_lt _ _) Hin) in Hreach. apply Z.leb_le in Hreach.
  rewrite (poll_outcome_skip _ 20 (Z.to_nat (K - 1))
                             (Z.to_nat (probes 20 timeout)) (now w)).
  - destruct (Z.to_nat (probes 20 timeout) - Z.to_nat (K - 1))%nat as [|m] eqn:Hm; [lia|].
    cbn [poll_outcome]. rewrite Z2Nat.id by lia.
    replace (now w + 20 * (K - 1) + 20) with (now w + 20 * K) by lia.
    unfold install_obs at 1 3. rewrite Hdown. reflexivity.
  - lia.
  - intros j Hj. destruct (Hmiss j ltac:(lia)) as [d [Hd Hi]].
    unfold install_obs. now rewrite Hd, Hi.
Qed.

Lemma install_wait_propagates_outage_witness :
  _wait_for_image_installed iso (Some "HD1.2") 900 (restarting 60)
  = (Raise DeviceError, set_now (now (restarting 60) + 20 * 1) (restarting 60)).
Proof.
  apply (install_wait_propagates_outage (restarting 60) iso (Some "HD1.2") 900 1).
  - lia.
  - lia.
  - intros j Hj. lia.
  - reflexivity.
Defined.

(** X5: with a timeout that is zero or negative neither wait sleeps or
    probes: both return [False] at once. *)
Theorem waits_without_time (w : World) (image_name : string)
        (volume : option string) (timeout : Z) :
  timeout <= 0 ->
  _wait_for_image_installed image_name volume timeout w = (Ok false, w)
  /\ _wait_for_device_reboot volume timeout w = (Ok false, w).
Proof.
  intros Ht. rewrite wait_for_image_installed_run, wait_for_device_reboot_run.
  rewrite !probes_none by exact Ht. cbn [Z.to_nat poll_outcome fst snd].
  now rewrite set_now_same.
Qed.

Lemma waits_without_time_witness :
  _wait_for_image_installed iso (Some "HD1.2") 0 (installing "5.00" 0)
  = (Ok false, installing "5.00" 0)
  /\ _wait_for_device_reboot (Some "HD1.2") 0 (installing "5.00" 0)
     = (Ok false, installing "5.00" 0).
Proof.
  apply (waits_without_time (installing "5.00" 0) iso (Some "HD1.2") 0). lia.
Defined.

(** ** An appliance that does not answer *)

(** X6: when the appliance does not answer at the time of the call,
    [reboot], [set_boot_options] and [get_boot_options] raise the error of
    their first query and leave the world as it was: no command is sent
    and no time is spent waiting. *)
Theorem unreachable_appliance_fails_at_once (w : World) (timer : Z) (confirm : bool)
        (image_name : string) (volume : option string) :
  appliance w (now w) = None ->
  reboot timer confirm volume w = (Raise DeviceError, w)
  /\ set_boot_options image_name volume w = (Raise DeviceError, w)
  /\ get_boot_options w = (Raise DeviceError, w).
Proof.
  intros Hd. split; [|split].
  - unfold reboot. now rewrite (bind_raise _ _ _ _ _ (get_active_volume_down w Hd)).
  - unfold set_boot_options, _check_free_space, _get_free_space.
    unfold bind at 1 2 3. now rewrite (remote_down _ w Hd).
  - unfold get_boot_options.
    now rewrite (bind_raise _ _ _ _ _ (get_active_volume_down w Hd)).
Qed.

Lemma unreachable_appliance_fails_at_once_witness :
  reboot 0 false (Some "HD1.2") (set_now 30 (restarting 60))
  = (Raise DeviceError, set_now 30 (restarting 60))
  /\ set_boot_options iso (Some "HD1.2") (set_now 30 (restarting 60))
     = (Raise DeviceError, set_now 30 (restarting 60))
  /\ get_boot_options (set_now 30 (restarting 60))
     = (Raise DeviceError, set_now 30 (restarting 60)).
Proof.
  apply (unreachable_appliance_fails_at_once (set_now 30 (restarting 60)) 0 false
           iso (Some "HD1.2")).
  reflexivity.
Defined.

(** ** What [set_boot_options] sends and leaves behind *)






(** ** The requests of an upload *)


(** The upload of a file that is there: its requests, request by request. *)
Lemma upload_image_posts (w : World) (path : string) (bs : list byte) :
  files w path = Some bs ->
  exists reqs,
    _upload_image path w = (Ok tt, post_all reqs w)
    /\ List.concat (map data reqs) = bs
    /\ forall i r,
        nth_error reqs i = Some r ->
        uri r = upload_uri (hostname w) (basename path) /\
        content_type r = "application/octet-stream" /\
        content_range r
        = (chunk_size * Z.of_nat i,
           chunk_size * Z.of_nat i + Z.of_nat (List.length (data r)) - 1,
           Z.of_nat (List.length bs)) /\
        data r = firstn (Z.to_nat chunk_size) (skipn (i * Z.to_nat chunk_size) bs) /\
        (1 <= List.length (data r))%nat.
Proof.
  intros Hf. rewrite (upload_image_run w path bs Hf).
  remember (Z.to_nat chunk_size) as C eqn:HC.
  assert (Z.of_nat C = chunk_size) as HCz by (subst C; unfold chunk_size; lia).
  assert (0 < C)%nat as HCpos by (unfold chunk_size in HCz; lia).
  destruct (upload_loop_posts C (upload_uri (hostname w) (basename path)) bs HCpos
              (List.length bs) 0%nat (S (List.length bs)) w)
    as [reqs [Hrun [Hcat [Hcount Hnth]]]].
  - cbn [skipn]. lia.
  - lia.
  - left. exists 0%nat. reflexivity.
  - cbn [skipn] in Hcat, Hcount. rewrite HCz in Hrun.
    change (Z.of_nat 0) with 0 in Hrun.
    pose proof (ceil_div_covers (Z.of_nat C) (Z.of_nat (List.length bs))) as Hcov.
    rewrite <- Hcount in Hcov.
    exists reqs. split; [exact Hrun|]. split; [exact Hcat|].
    intros i r Hi.
    assert (i < List.length reqs)%nat as Hlt by (apply nth_error_Some; congruence).
    destruct (Hnth i r Hi) as [Hu [Ht [Hr Hd]]].
    cbn [Nat.add] in Hr, Hd.
    assert (Z.of_nat C * (Z.of_nat i + 1) <= Z.of_nat C * Z.of_nat (List.length reqs))
      by (apply Z.mul_le_mono_nonneg_l; lia).
    assert (Z.of_nat (List.length (data r))
            = Z.min (Z.of_nat C) (Z.of_nat (List.length bs) - Z.of_nat C * Z.of_nat i))
      as Hlen.
    { rewrite Hd, length_firstn, length_skipn. lia. }
    split; [exact Hu|]. split; [exact Ht|]. rewrite <- HCz.
    split; [|split; [exact Hd|lia]].
    rewrite Hr, Hlen. f_equal. f_equal; lia.
Qed.

(** X9: each request of an upload goes to the upload address of the file's
    base name and declares the range it carries: request [i] starts at
    offset 512 KiB * i, ends at its start plus the length of its body minus
    one, and states the size of the file as the total; its body is the
    slice of the file at that offset, and is never empty. *)
Theorem upload_ranges_tile_the_file (w : World) (path : string) (bs : list byte) :
  files w path = Some bs ->
  exists reqs,
    _upload_image path w = (Ok tt, post_all reqs w)
    /\ forall i r,
        nth_error reqs i = Some r ->
        uri r = upload_uri (hostname w) (basename path) /\
        content_type r = "application/octet-stream" /\
        content_range r
        = (chunk_size * Z.of_nat i,
           chunk_size * Z.of_nat i + Z.of_nat (List.length (data r)) - 1,
           Z.of_nat (List.length bs)) /\
        data r = firstn (Z.to_nat chunk_size) (skipn (i * Z.to_nat chunk_size) bs) /\
        (1 <= List.length (data r))%nat.
Proof.
  intros Hf. destruct (upload_image_posts w path bs Hf) as [reqs [Hrun [_ Hnth]]].
  exists reqs. split; [exact Hrun|exact Hnth].
Qed.

Lemma upload_ranges_tile_the_file_witness :
  exists reqs,
    _upload_image ("/tmp/" ++ iso)%string (steady Py3 "7.10")
    = (Ok tt, post_all reqs (steady Py3 "7.10"))
    /\ forall i r,
        nth_error reqs i = Some r ->
        uri r = upload_uri (hostname (steady Py3 "7.10")) (basename ("/tmp/" ++ iso)%string) /\
        content_type r = "application/octet-stream" /\
        content_range r
        = (chunk_size * Z.of_nat i,
           chunk_size * Z.of_nat i + Z.of_nat (List.length (data r)) - 1,
           Z.of_nat (List.length [x42; x49; x47; x49; x50]%byte)) /\
        data r = firstn (Z.to_nat chunk_size)
                        (skipn (i * Z.to_nat chunk_size) [x42; x49; x47; x49; x50]%byte) /\
        (1 <= List.length (data r))%nat.
Proof.
  exact (upload_ranges_tile_the_file (steady Py3 "7.10") ("/tmp/" ++ iso)%string
                                     [x42; x49; x47; x49; x50]%byte eq_refl).
Defined.


(** ** The remote checksum *)

Lemma rev_string_rev (s a b : string) :
  rev_string a (rev_string b s) = rev_string (s ++ a)%string b.
Proof.
  revert a b. induction s as [|c s IH]; intros a b; [reflexivity|].
  cbn [rev_string]. rewrite IH. reflexivity.
Qed.

Lemma string_app_nil_r (s : string) : (s ++ "")%string = s.
Proof. induction s as [|c s IH]; [reflexivity|]. cbn. now rewrite IH. Qed.

Lemma rev_string_involutive (s : string) : rev_string "" (rev_string "" s) = s.
Proof. rewrite rev_string_rev. cbn [rev_string]. apply string_app_nil_r. Qed.

Lemma rev_string_empty (acc s : string) :
  rev_string acc s = "" -> acc = "" /\ s = "".
Proof.
  revert acc. induction s as [|c s IH]; intros acc H; [now split|].
  cbn [rev_string] in H. destruct (IH _ H) as [Habs _]. discriminate Habs.
Qed.

(** Characters that are not whitespace pile up in the current token. *)
Lemma split_from_token (tok rest : string) :
  forall cur,
    all_chars (fun c => negb (is_whitespace c)) tok = true ->
    split_from cur (tok ++ rest)%string = split_from (rev_string cur tok) rest.
Proof.
  induction tok as [|c tok IH]; intros cur Htok; [reflexivity|].
  cbn [all_chars] in Htok. apply andb_true_iff in Htok. destruct Htok as [Hc Htok].
  cbn [append split_from rev_string].
  apply negb_true_iff in Hc. rewrite Hc. now apply IH.
Qed.

Lemma split_blank (s : string) :
  all_chars is_whitespace s = true -> split_from "" s = [].
Proof.
  induction s as [|c s IH]; intros H; [reflexivity|].
  cbn [all_chars] in H. apply andb_true_iff in H. destruct H as [Hc Hs].
  cbn [split_from]. rewrite Hc. cbn. now apply IH.
Qed.

Lemma split_first_token (tok rest : string) (sep : ascii) :
  tok <> "" ->
  all_chars (fun c => negb (is_whitespace c)) tok = true ->
  is_whitespace sep = true ->
  split (tok ++ String sep rest)%string = tok :: split rest.
Proof.
  intros Hne Htok Hsep. unfold split.
  rewrite (split_from_token tok (String sep rest) "" Htok).
  cbn [split_from]. rewrite Hsep.
  destruct (String.eqb_spec (rev_string "" tok) "") as [E|_].
  - destruct (rev_string_empty _ _ E) as [_ Habs]. contradiction.
  - now rewrite rev_string_involutive.
Qed.

(** X11: the remote checksum is the first run of characters of the output
    of [md5sum] that are not whitespace: for an output that starts with a
    digest followed by whitespace, it is the digest. *)
Theorem remote_md5_is_first_token (w : World) (d : Device)
        (filepath digest rest : string) (sep : ascii) :
  appliance w (now w) = Some d ->
  bash d (md5sum_args filepath) = Some (digest ++ String sep rest)%string ->
  digest <> "" ->
  all_chars (fun c => negb (is_whitespace c)) digest = true ->
  is_whitespace sep = true ->
  _file_copy_remote_md5 filepath w = (Ok (PyStr digest), w).
Proof.
  intros Hd Hout Hne Hdig Hsep. unfold _file_copy_remote_md5.
  rewrite (bind_ok _ _ _ _ _ (remote_ok _ w d Hd)). rewrite Hout.
  now rewrite (split_first_token digest rest sep Hne Hdig Hsep).
Qed.

Lemma remote_md5_is_first_token_witness :
  _file_copy_remote_md5 ("/shared/images/" ++ iso)%string (steady Py3 "7.10")
  = (Ok (PyStr "cc9a88266f41ac0e2375972a36975a0c"), steady Py3 "7.10").
Proof.
  apply (remote_md5_is_first_token (steady Py3 "7.10")
           (lab_device (Some (vg_report "7.10")) (Some iso) [hd1_1 true; hd1_2 false false])
           ("/shared/images/" ++ iso)%string "cc9a88266f41ac0e2375972a36975a0c"
           (" /shared/images/" ++ iso)%string " ");
    [reflexivity | reflexivity | discriminate | reflexivity | reflexivity].
Defined.

(** X12: when [md5sum] has no result the remote checksum is [None]; when
    its output is empty or all whitespace, taking the first token raises
    [IndexError]. *)
Theorem remote_md5_without_digest (w : World) (d : Device) (filepath : string) :
  appliance w (now w) = Some d ->
  match bash d (md5sum_args filepath) with
  | None => _file_copy_remote_md5 filepath w = (Ok PyNone, w)
  | Some output =>
      all_chars is_whitespace output = true ->
      _file_copy_remote_md5 filepath w = (Raise IndexError, w)
  end.
Proof.
  intros Hd. unfold _file_copy_remote_md5.
  rewrite (bind_ok _ _ _ _ _ (remote_ok _ w d Hd)).
  destruct (bash d (md5sum_args filepath)) as [output|]; [|reflexivity].
  intros Hblank. unfold split. now rewrite (split_blank output Hblank).
Qed.

Lemma remote_md5_without_digest_witness :
  _file_copy_remote_md5 "/shared/images/none.iso" (steady Py3 "7.10")
  = (Ok PyNone, steady Py3 "7.10").
Proof.
  exact (remote_md5_without_digest (steady Py3 "7.10")
           (lab_device (Some (vg_report "7.10")) (Some iso) [hd1_1 true; hd1_2 false false])
           "/shared/images/none.iso" eq_refl).
Defined.

(** ** The remote match *)

Lemma all_chars_rev_string (p : ascii -> bool) (s : string) :
  forall acc, all_chars p (rev_string acc s) = all_chars p s && all_chars p acc.
Proof.
  induction s as [|c s IH]; intros acc; [reflexivity|].
  cbn [rev_string all_chars]. rewrite IH. cbn [all_chars].
  destruct (p c), (all_chars p s), (all_chars p acc); reflexivity.
Qed.

Lemma basename_from_no_slash (p : string) :
  forall cur,
    all_chars (fun c => negb (Ascii.eqb c "/")) cur = true ->
    all_chars (fun c => negb (Ascii.eqb c "/")) (basename_from cur p) = true.
Proof.
  induction p as [|c p IH]; intros cur Hcur.
  - cbn [basename_from]. rewrite all_chars_rev_string. now rewrite Hcur.
  - cbn [basename_from]. destruct (Ascii.eqb c "/") eqn:Hc.
    + now apply IH.
    + apply IH. cbn [all_chars]. now rewrite Hc, Hcur.
Qed.

(** A base name holds no slash, so joining it to the image store keeps it
    inside the store. *)
Lemma join_basename (p : string) :
  join_shared_images (basename p) = ("/shared/images/" ++ basename p)%string.
Proof.
  pose proof (basename_from_no_slash p "" eq_refl) as H. fold (basename p) in H.
  destruct (basename p) as [|c b]; [reflexivity|].
  cbn [all_chars] in H. apply andb_true_iff in H. destruct H as [Hc _].
  destruct c as [[] [] [] [] [] [] [] []]; try reflexivity; discriminate Hc.
Qed.

Lemma image_match_found image_name checksum w v r :
  _image_exists image_name w = (Ok v, w) ->
  truthy v = true ->
  _file_copy_remote_md5 (join_shared_images image_name) w = (Ok r, w) ->
  _image_match image_name checksum w = (Ok (py_eq checksum r), w).
Proof.
  intros Hex Hv Hremote. unfold _image_match.
  rewrite (bind_ok _ _ _ _ _ Hex). rewrite Hv.
  assert (_check_md5sum (join_shared_images image_name) checksum w
          = (Ok (py_eq checksum r), w)) as Hsum.
  { unfold _check_md5sum. rewrite (bind_ok _ _ _ _ _ Hremote).
    destruct (py_eq checksum r); reflexivity. }
  rewrite (bind_ok _ _ _ _ _ Hsum).
  destruct (py_eq checksum r); reflexivity.
Qed.

(** X13: for a file whose base name is a line of the listing of the image
    store, [file_copy_remote_exists] compares the local checksum (or [None]
    for a missing file) with the checksum of /shared/images/<base name> on
    the appliance, and answers whether they are equal. *)
Theorem remote_exists_compares_checksums (w : World) (d : Device) (src : string)
        (dest : option string) (listing : string) (r : pyval) :
  appliance w (now w) = Some d ->
  truthy_opt dest = false ->
  unix_ls d "/shared/images" = Some listing ->
  In (basename src) (splitlines listing) ->
  _file_copy_remote_md5 ("/shared/images/" ++ basename src)%string w = (Ok r, w) ->
  file_copy_remote_exists src dest w =
  (Ok (py_eq match files w src with
             | Some bs => PyStr (MD5.hexdigest bs)
             | None => PyNone
             end r), w).
Proof.
  intros Hd Hdest Hls Hin Hremote. unfold file_copy_remote_exists. rewrite Hdest.
  rewrite (bind_ok _ _ _ _ _ (local_md5_total w src)).
  pose proof (image_exists_ok (basename src) w d Hd) as Hex.
  rewrite Hls, (proj2 (existsb_eqb_in _ _) Hin) in Hex.
  rewrite <- join_basename in Hremote.
  rewrite (bind_ok _ _ _ _ _ (image_match_found _ _ w _ r Hex eq_refl Hremote)).
  destruct (py_eq _ r); reflexivity.
Qed.

Lemma remote_exists_compares_checksums_witness :
  file_copy_remote_exists ("/tmp/" ++ iso)%string None (steady Py3 "7.10")
  = (Ok (py_eq (PyStr (MD5.hexdigest [x42; x49; x47; x49; x50]%byte))
               (PyStr "cc9a88266f41ac0e2375972a36975a0c")), steady Py3 "7.10").
Proof.
  apply (remote_exists_compares_checksums (steady Py3 "7.10")
           (lab_device (Some (vg_report "7.10")) (Some iso) [hd1_1 true; hd1_2 false false])
           ("/tmp/" ++ iso)%string None iso (PyStr "cc9a88266f41ac0e2375972a36975a0c")).
  - reflexivity.
  - reflexivity.
  - reflexivity.
  - left. reflexivity.
  - vm_compute. reflexivity.
Defined.

(** X14: a local file that is missing and an [md5sum] without result both
    give [None], and [None == None]: for a listed image
    [file_copy_remote_exists] then answers [True]. *)
Theorem remote_exists_when_both_checksums_are_none (w : World) (d : Device)
        (src : string) (dest : option string) (listing : string) :
  appliance w (now w) = Some d ->
  truthy_opt dest = false ->
  files w src = None ->
  unix_ls d "/shared/images" = Some listing ->
  In (basename src) (splitlines listing) ->
  bash d (md5sum_args ("/shared/images/" ++ basename src)) = None ->
  file_copy_remote_exists src dest w = (Ok true, w).
Proof.
  intros Hd Hdest Hf Hls Hin Hsilent.
  unfold file_copy_remote_exists. rewrite Hdest.
  rewrite (bind_ok _ _ _ _ _ (local_md5_total w src)). rewrite Hf.
  pose proof (image_exists_ok (basename src) w d Hd) as Hex.
  rewrite Hls, (proj2 (existsb_eqb_in _ _) Hin) in Hex.
  assert (_file_copy_remote_md5 (join_shared_images (basename src)) w = (Ok PyNone, w))
    as Hremote.
  { rewrite join_basename. unfold _file_copy_remote_md5.
    rewrite (bind_ok _ _ _ _ _ (remote_ok _ w d Hd)). now rewrite Hsilent. }
  now rewrite (bind_ok _ _ _ _ _ (image_match_found _ _ w _ PyNone Hex eq_refl Hremote)).
Qed.

Lemma remote_exists_when_both_checksums_are_none_witness :
  file_copy_remote_exists ("/var/" ++ iso)%string None
                          (lab_world Py3 (fun _ => Some quiet_device))
  = (Ok true, lab_world Py3 (fun _ => Some quiet_device)).
Proof.
  apply (remote_exists_when_both_checksums_are_none
           (lab_world Py3 (fun _ => Some quiet_device)) quiet_device
           ("/var/" ++ iso)%string None iso).
  - reflexivity.
  - reflexivity.
  - reflexivity.
  - reflexivity.
  - left. reflexivity.
  - reflexivity.
Defined.

(** ** The block size of the local checksum *)





(** ** Targets and images that are not as expected *)

Lemma reboot_without_target_witness :
  issued (snd (reboot 0 false None (restarting 60))) = issued (restarting 60) ++ [Reboot].
Proof.
  apply (reboot_without_target (restarting 60)
           (lab_device None None [hd1_1 true; hd1_2 true false]) 0 false None);
    reflexivity.
Defined.

(** X16: when several images of the list carry the full path asked for, the
    last of them decides: the check answers whether a volume of the given
    name holds that one, complete. *)
Theorem image_installed_last_image_decides (w : World) (d : Device)
        (image_name : string) (volume : option string)
        (before after : list Image.t) (image : Image.t) :
  appliance w (now w) = Some d ->
  images d = before ++ image :: after ->
  Image.fullPath image = image_name ->
  (forall x, In x after -> Image.fullPath x <> image_name) ->
  _image_installed image_name volume w
  = (Ok (existsb (holds_image image volume) (volumes d)), w).
Proof.
  intros Hd Himgs Hname Hafter.
  rewrite (image_installed_ok image_name volume w d Hd).
  unfold installed_on. rewrite Himgs.
  now rewrite (select_image_last image_name before image after Hname Hafter).
Qed.

Lemma image_installed_last_image_decides_witness :
  _image_installed iso (Some "HD1.1") (lab_world Py3 (fun _ => Some twin_device))
  = (Ok (existsb (holds_image iso_image (Some "HD1.1")) (volumes twin_device)),
     lab_world Py3 (fun _ => Some twin_device)).
Proof.
  apply (image_installed_last_image_decides
           (lab_world Py3 (fun _ => Some twin_device)) twin_device iso (Some "HD1.1")
           [ {| Image.fullPath := iso; Image.version := "11.5.4";
                Image.build := "0.0.256" |} ] [] iso_image).
  - reflexivity.
  - reflexivity.
  - reflexivity.
  - intros x [].
Defined.

Example image_installed_older_twin_ignored :
  fst (_image_installed iso (Some "HD1.1") (lab_world Py3 (fun _ => Some twin_device)))
  = Ok false
  /\ fst (_image_installed iso (Some "HD1.2") (lab_world Py3 (fun _ => Some twin_device)))
     = Ok true.
Proof. split; reflexivity. Qed.

(** ** A minimum that is not positive *)

Lemma round_half_even_nonneg (num den : Z) :
  0 <= num -> 0 < den -> 0 <= round_half_even num den.
Proof.
  intros Hn Hd. unfold round_half_even.
  assert (0 <= num / den) by (apply Z.div_pos; lia).
  destruct (2 * (num mod den) <? den); [lia|].
  destruct (den <? 2 * (num mod den)); [lia|].
  destruct (Z.even (num / den)); lia.
Qed.

Lemma round_binary64_nonneg (n d : Z) :
  0 <= n -> 0 < d -> float_nonneg (round_binary64 n d).
Proof.
  intros Hn Hd. unfold round_binary64.
  destruct (n =? 0); [apply Qle_refl|].
  cbv zeta.
  set (s := Z.max _ (-1022) - 52).
  destruct (Z.leb_spec 0 s) as [Hs|Hs].
  - assert (0 < 2 ^ s) by (apply Z.pow_pos_nonneg; lia).
    assert (0 <= round_half_even n (d * 2 ^ s))
      by (apply round_half_even_nonneg; [lia|apply Z.mul_pos_pos; lia]).
    destruct (2 ^ 1024 <=? round_half_even n (d * 2 ^ s) * 2 ^ s); [exact I|].
    cbn [float_nonneg]. unfold Qle. cbn [Qnum Qden inject_Z]. nia.
  - assert (0 < 2 ^ (- s)) by (apply Z.pow_pos_nonneg; lia).
    assert (0 <= round_half_even (n * 2 ^ (- s)) d)
      by (apply round_half_even_nonneg; [apply Z.mul_nonneg_nonneg; lia|lia]).
    cbn [float_nonneg]. unfold Qle. cbn [Qnum Qden]. lia.
Qed.

Lemma digit_value_nonneg (c : ascii) : is_digit c = true -> 0 <= digit_value c.
Proof.
  unfold is_digit, digit_value. intros H. apply andb_true_iff in H.
  destruct H as [H _]. apply Z.leb_le in H. lia.
Qed.

Lemma decimal_parts_nonneg (s : string) :
  forall n frac,
    0 <= n ->
    (forall k, frac = Some k -> 0 <= k) ->
    0 <= fst (decimal_parts s n frac) /\ 0 <= snd (decimal_parts s n frac).
Proof.
  induction s as [|c s IH]; intros n frac Hn Hfrac.
  - cbn [decimal_parts fst snd]. split; [exact Hn|].
    destruct frac as [k|]; [now apply Hfrac|lia].
  - cbn [decimal_parts]. destruct (is_digit c) eqn:Hc.
    + apply IH.
      * pose proof (digit_value_nonneg c Hc). lia.
      * intros k Hk. destruct frac as [k0|]; [|discriminate Hk].
        injection Hk as <-. specialize (Hfrac k0 eq_refl). lia.
    + apply IH; [exact Hn|]. intros k [= <-]. lia.
Qed.

Lemma py_float_nonneg (s : string) : float_nonneg (py_float s).
Proof.
  unfold py_float.
  destruct (decimal_parts_nonneg s 0 None) as [Hn Hk]; [lia|discriminate|].
  destruct (decimal_parts s 0 None) as [n k]. cbn [fst snd] in Hn, Hk.
  apply round_binary64_nonneg; [exact Hn|]. apply Z.pow_pos_nonneg; lia.
Qed.

(** X17: with a minimum that is zero (the default) or negative,
    [_check_free_space] never returns [True]: the free space it parses is
    never negative, so the result is [False], or an exception. *)
Theorem check_free_space_nonpositive_minimum (w : World) (m : Z) :
  m <= 0 ->
  fst (_check_free_space m w) = Ok (PyBool false)
  \/ exists e, fst (_check_free_space m w) = Raise e.
Proof.
  intros Hm.
  unfold _check_free_space, _get_free_space, bind, remote, get_python.
  destruct (appliance w (now w)) as [d|]; [|right; now eexists].
  destruct (bash d vgdisplay_args) as [r|]; [|right; now eexists].
  destruct (re_match (free_space_regex (python w)) r) as [g|]; cbn [ret].
  - pose proof (py_float_nonneg g) as Hnn.
    destruct (py_float g) as [q|]; [|left; reflexivity].
    cbn [float_nonneg] in Hnn. cbn [truthy].
    destruct (Qeq_bool q 0) eqn:Hz; cbn [negb]; [right; now eexists|].
    cbn [int_lt lift ret].
    destruct (Qle_bool q (inject_Z m)) eqn:Hle; [|left; reflexivity].
    exfalso. apply Qle_bool_iff in Hle.
    assert (q == 0)%Q as Hq0.
    { apply Qle_antisym; [|exact Hnn].
      apply (Qle_trans _ (inject_Z m)); [exact Hle|].
      unfold Qle. cbn [Qnum Qden inject_Z]. lia. }
    apply Qeq_bool_iff in Hq0. congruence.
  - cbn [truthy]. destruct (r =? "")%string; cbn [negb]; [right; now eexists|].
    destruct (python w); cbn [int_lt lift ret raise]; [left; reflexivity|right; now eexists].
Qed.

Lemma check_free_space_nonpositive_minimum_witness :
  fst (_check_free_space 0 (steady Py3 "7.10")) = Ok (PyBool false)
  \/ exists e, fst (_check_free_space 0 (steady Py3 "7.10")) = Raise e.
Proof.
  apply (check_free_space_nonpositive_minimum (steady Py3 "7.10") 0). lia.
Defined.

(** ** Reading the free space off the report *)

Lemma push_all_filling (s acc : string) :
  push_all (Filling acc) s = Filling (rev_string acc s).
Proof. revert acc. induction s as [|c s IH]; intros acc; [reflexivity|apply IH]. Qed.

Lemma push_all_app (a b : string) (g : capture) :
  push_all g (a ++ b)%string = push_all (push_all g a) b.
Proof. revert g. induction a as [|c a IH]; intros g; [reflexivity|apply IH]. Qed.

(** A repetition whose continuation fails wherever it is tried further on
    is the continuation here. *)
Lemma star_here (p : ascii -> bool) (k : capture -> string -> option string) :
  forall rest g,
    (forall mid rest', rest = (mid ++ rest')%string -> mid <> "" ->
                       k (push_all g mid) rest' = None) ->
    star p k g rest = k g rest.
Proof.
  induction rest as [|c s IH]; intros g Hlater; [reflexivity|].
  cbn [star]. destruct (p c); [|reflexivity].
  rewrite IH.
  - pose proof (Hlater (String c "") s eq_refl ltac:(discriminate)) as H0.
    cbn [push_all] in H0. now rewrite H0.
  - intros mid rest' Hs Hmid.
    apply (Hlater (String c mid) rest'); [cbn; now rewrite Hs|discriminate].
Qed.

(** A greedy repetition comes back to the last place where its
    continuation matches. *)
Lemma star_backtracks_to (p : ascii -> bool) (k : capture -> string -> option string) :
  forall pre g rest r,
    all_chars p pre = true ->
    k (push_all g pre) rest = Some r ->
    (forall mid rest', rest = (mid ++ rest')%string -> mid <> "" ->
                       k (push_all (push_all g pre) mid) rest' = None) ->
    star p k g (pre ++ rest)%string = Some r.
Proof.
  induction pre as [|c pre IH]; intros g rest r Hpre Hk Hlater.
  - cbn [append]. rewrite star_here; [exact Hk|exact Hlater].
  - cbn [all_chars] in Hpre. apply andb_true_iff in Hpre. destruct Hpre as [Hc Hpre].
    cbn [append star]. rewrite Hc.
    now rewrite (IH (push g c) rest r Hpre Hk Hlater).
Qed.

(** A greedy repetition that runs up to a character outside its class, and
    whose continuation matches there. *)
Lemma star_greedy (p : ascii -> bool) (k : capture -> string -> option string) :
  forall a g x rest r,
    all_chars p a = true ->
    p x = false ->
    k (push_all g a) (String x rest) = Some r ->
    star p k g (a ++ String x rest)%string = Some r.
Proof.
  induction a as [|c a IH]; intros g x rest r Ha Hx Hk.
  - cbn [append star]. now rewrite Hx.
  - cbn [all_chars] in Ha. apply andb_true_iff in Ha. destruct Ha as [Hc Ha].
    cbn [append star]. rewrite Hc. now rewrite (IH (push g c) x rest r Ha Hx Hk).
Qed.

Lemma is_space_blank (py : pyver) : is_space py " " = true.
Proof. destruct py; reflexivity. Qed.

Lemma is_space_slash (py : pyver) : is_space py "/" = false.
Proof. destruct py; reflexivity. Qed.

(** What follows the repetition needs a slash in second place. *)
Lemma after_star_needs_slash (py : pyver) (r : list atom) (g : capture) (s : string) :
  match s with
  | String _ (String c _) => Ascii.eqb c "/" = false
  | _ => True
  end ->
  exec (One (is_space py) :: One (Ascii.eqb "/") :: r) g s = None.
Proof.
  destruct s as [|c1 [|c2 s]]; intros H; cbn [exec].
  - reflexivity.
  - destruct (is_space py c1); reflexivity.
  - destruct (is_space py c1); [|reflexivity].
    rewrite Ascii.eqb_sym, H. reflexivity.
Qed.

Lemma no_slash_app (a b : string) :
  all_chars (fun c => negb (Ascii.eqb c "/")) (a ++ b)
  = all_chars (fun c => negb (Ascii.eqb c "/")) a
    && all_chars (fun c => negb (Ascii.eqb c "/")) b.
Proof.
  induction a as [|c a IH]; [reflexivity|].
  cbn [append all_chars]. rewrite IH. now rewrite andb_assoc.
Qed.

Lemma digits_no_slash (s : string) :
  all_chars is_digit s = true -> all_chars (fun c => negb (Ascii.eqb c "/")) s = true.
Proof.
  induction s as [|c s IH]; intros H; [reflexivity|].
  cbn [all_chars] in *. apply andb_true_iff in H. destruct H as [Hc Hs].
  rewrite (IH Hs), andb_true_r.
  destruct (Ascii.eqb_spec c "/") as [->|_]; [discriminate Hc|reflexivity].
Qed.

(** In a text without slash nothing further on starts with a character
    followed by a slash. *)
Lemma no_slash_suffix (body : string) :
  all_chars (fun c => negb (Ascii.eqb c "/")) body = true ->
  forall mid rest',
    body = (mid ++ rest')%string ->
    match rest' with
    | String _ (String c _) => Ascii.eqb c "/" = false
    | _ => True
    end.
Proof.
  intros Hbody mid rest' ->. rewrite no_slash_app in Hbody.
  apply andb_true_iff in Hbody. destruct Hbody as [_ H].
  destruct rest' as [|c1 [|c2 s]]; [exact I|exact I|].
  cbn [all_chars] in H. apply andb_true_iff in H. destruct H as [_ H].
  apply andb_true_iff in H. destruct H as [H _]. now apply negb_true_iff in H.
Qed.

Lemma exec_star (p : ascii -> bool) (r : list atom) (g : capture) (s : string) :
  exec (Star p :: r) g s = star p (exec r) g s.
Proof. reflexivity. Qed.

Lemma exec_separator (py : pyver) (r : list atom) (s : string) :
  exec (One (is_space py) :: One (Ascii.eqb "/") :: One (is_space py) :: GroupOpen :: r)
       NotYet (" / " ++ s)
  = exec r (Filling "") s.
Proof. cbn [append exec]. rewrite is_space_blank. reflexivity. Qed.

Lemma exec_digits (r : list atom) (acc a : string) (x : ascii) (rest res : string) :
  a <> "" -> all_chars is_digit a = true -> is_digit x = false ->
  exec r (Filling (rev_string acc a)) (String x rest) = Some res ->
  exec (Plus is_digit :: r) (Filling acc) (a ++ String x rest) = Some res.
Proof.
  intros Hne Ha Hx Hk. destruct a as [|c a]; [contradiction|].
  cbn [all_chars] in Ha. apply andb_true_iff in Ha. destruct Ha as [Hc Ha].
  cbn [append exec]. rewrite Hc.
  apply star_greedy; [exact Ha|exact Hx|].
  cbn [push]. rewrite push_all_filling. exact Hk.
Qed.

Lemma exec_point (r : list atom) (acc s res : string) :
  exec r (Filling (String "." acc)) s = Some res ->
  exec (Opt "." :: r) (Filling acc) (String "." s) = Some res.
Proof. intros Hk. cbn [exec]. rewrite Ascii.eqb_refl. cbn [push]. now rewrite Hk. Qed.

Lemma exec_unit (t tail : string) :
  exec [GroupClose; Lit " GB free"] (Filling t) (" GB free" ++ tail)
  = Some (rev_string "" t).
Proof. reflexivity. Qed.

Lemma captured_figure (whole frac : string) :
  rev_string "" (rev_string (String "." (rev_string "" whole)) frac)
  = (whole ++ "." ++ frac)%string.
Proof.
  change (rev_string (String "." (rev_string "" whole)) frac)
    with (rev_string (rev_string "" whole) ("." ++ frac)).
  rewrite !rev_string_rev. cbn [rev_string]. now rewrite string_app_nil_r.
Qed.

(** The pattern on a line of the documented shape: the figure before
    " GB free" is group 1. *)
Lemma re_match_free_figure (py : pyver) (label whole frac tail : string) :
  all_chars is_dot label = true ->
  whole <> "" -> all_chars is_digit whole = true ->
  frac <> "" -> all_chars is_digit frac = true ->
  all_chars (fun c => negb (Ascii.eqb c "/")) tail = true ->
  re_match (free_space_regex py)
           (label ++ " / " ++ whole ++ "." ++ frac ++ " GB free" ++ tail)
  = Some (whole ++ "." ++ frac)%string.
Proof.
  intros Hlabel Hw Hwd Hf Hfd Htail.
  unfold re_match, free_space_regex. rewrite exec_star.
  apply star_backtracks_to; [exact Hlabel| |].
  - (* the match at the last " / " *)
    replace (push_all NotYet label) with NotYet
      by (clear; induction label as [|c l IH]; [reflexivity|exact IH]).
    rewrite exec_separator.
    apply exec_digits; [exact Hw|exact Hwd|reflexivity|].
    apply exec_point.
    change (frac ++ " GB free" ++ tail)%string
      with (frac ++ String " " ("GB free" ++ tail))%string.
    apply exec_digits; [exact Hf|exact Hfd|reflexivity|].
    change (String " " ("GB free" ++ tail)) with (" GB free" ++ tail)%string.
    rewrite exec_unit. f_equal. apply captured_figure.
  - (* nothing matches further on *)
    intros mid rest' Hsplit Hmid.
    apply after_star_needs_slash.
    destruct mid as [|m1 mid]; [contradiction|].
    cbn [append] in Hsplit. injection Hsplit as _ Hsplit.
    destruct mid as [|m2 mid].
    + cbn [append] in Hsplit. subst rest'. reflexivity.
    + cbn [append] in Hsplit. injection Hsplit as _ Hsplit.
      apply (no_slash_suffix (" " ++ whole ++ "." ++ frac ++ " GB free" ++ tail)%string)
        with (mid := mid); [|exact Hsplit].
      cbn [append all_chars]. rewrite no_slash_app.
      cbn [append all_chars]. rewrite no_slash_app.
      cbn [append all_chars].
      rewrite (digits_no_slash whole Hwd), (digits_no_slash frac Hfd), Htail.
      reflexivity.
Qed.

(** X18: on a report of the documented shape, a line that ends in
    " / <digits>.<digits> GB free" and whatever follows without a slash,
    [_get_free_space] returns the float of that figure. *)
Theorem get_free_space_reads_the_free_figure (w : World) (d : Device)
        (label whole frac tail : string) :
  appliance w (now w) = Some d ->
  bash d vgdisplay_args
  = Some (label ++ " / " ++ whole ++ "." ++ frac ++ " GB free" ++ tail)%string ->
  all_chars is_dot label = true ->
  whole <> "" -> all_chars is_digit whole = true ->
  frac <> "" -> all_chars is_digit frac = true ->
  all_chars (fun c => negb (Ascii.eqb c "/")) tail = true ->
  _get_free_space w = (Ok (PyFloat (py_float (whole ++ "." ++ frac))), w).
Proof.
  intros Hd Hout Hlabel Hw Hwd Hf Hfd Htail.
  rewrite (get_free_space_ok w d Hd), Hout.
  now rewrite (re_match_free_figure (python w) label whole frac tail
                                    Hlabel Hw Hwd Hf Hfd Htail).
Qed.

Lemma get_free_space_reads_the_free_figure_witness :
  _get_free_space (steady Py2 "7.10")
  = (Ok (PyFloat (py_float ("7" ++ "." ++ "10"))), steady Py2 "7.10").
Proof.
  apply (get_free_space_reads_the_free_figure (steady Py2 "7.10")
           (lab_device (Some (vg_report "7.10")) (Some iso) [hd1_1 true; hd1_2 false false])
           (dq ++ "vg-db-sda" ++ dq ++ " 30.98 GB  [23.89 GB  used")%string
           "7" "10" "]");
    [reflexivity | reflexivity | reflexivity | discriminate | reflexivity
     | discriminate | reflexivity | reflexivity].
Defined.
